(** * NYC Housing Connect lottery bot: a shallow embedding and its properties

    The development embeds [housing_connect_bot.py] and the batch script
    [apply_all_sales.py].  The browser is an external collaborator: it is
    modelled as an arbitrary [driver] answering the calls the bot makes, and
    every statement is proved for all drivers.

    Conventions of the embedding.
    - A Python [str] is a [string]; the character of code [n] stands for the
      code point U+00[n], so the model covers texts over U+0000..U+00FF.
      Character classes ([\d], [\s], case folding) are the ones Python uses,
      restricted to that range.
    - A Python [int] is a [Z].  The interpreter's optional limit on the
      number of digits accepted by [int(str)] is not modelled.
    - [print] is a no-op.  Exceptions are the subclasses of [Exception];
      interrupts of the process are outside the model.
    - A [time.sleep], also of a [random.uniform] duration, lets the
      browser's world change and is recorded in the trace with the bounds
      of its duration, in milliseconds. *)

From stdpp Require Import gmap strings list pretty.
From Stdlib Require Import ZArith Ascii Lia.

Local Open Scope Z_scope.

(** ** Python strings *)

Module Py.

Definition code (a : ascii) : N := Ascii.N_of_ascii a.

(** [\d] on U+0000..U+00FF: the decimal digits. *)
Definition is_digit (a : ascii) : bool :=
  ((48 <=? code a) && (code a <=? 57))%N.

(** [str.isspace] and [\s] on U+0000..U+00FF. *)
Definition is_space (a : ascii) : bool :=
  let n := code a in
  (((9 <=? n) && (n <=? 13)) || ((28 <=? n) && (n <=? 32))
   || (n =? 133) || (n =? 160))%N.

(** [str.lower] on one character of U+0000..U+00FF. *)
Definition lower_char (a : ascii) : ascii :=
  let n := code a in
  if (((65 <=? n) && (n <=? 90))
      || ((192 <=? n) && (n <=? 222) && negb (n =? 215)))%N
  then Ascii.ascii_of_N (n + 32) else a.

Fixpoint lower (s : string) : string :=
  match s with
  | EmptyString => EmptyString
  | String a s' => String (lower_char a) (lower s')
  end.

(** [s.startswith(p)] *)
Fixpoint startswith (p s : string) : bool :=
  match p, s with
  | EmptyString, _ => true
  | String a p', String b s' => if Ascii.eqb a b then startswith p' s' else false
  | String _ _, EmptyString => false
  end.

(** [needle in s] *)
Fixpoint contains (needle s : string) : bool :=
  startswith needle s ||
  match s with
  | EmptyString => false
  | String _ s' => contains needle s'
  end.

Fixpoint lstrip (s : string) : string :=
  match s with
  | String a s' => if is_space a then lstrip s' else s
  | EmptyString => EmptyString
  end.

(** [rstrip] drops the white space at the end: a character is kept when it
    is not white space or when something is kept after it. *)
Fixpoint rstrip (s : string) : string :=
  match s with
  | EmptyString => EmptyString
  | String a s' =>
      match rstrip s' with
      | EmptyString => if is_space a then EmptyString else String a EmptyString
      | r => String a r
      end
  end.

(** [s.strip()] *)
Definition strip (s : string) : string := rstrip (lstrip s).

(** [s.replace(c, '')] for a one-character [c]. *)
Fixpoint remove_char (c : ascii) (s : string) : string :=
  match s with
  | EmptyString => EmptyString
  | String a s' =>
      if Ascii.eqb a c then remove_char c s' else String a (remove_char c s')
  end.

(** Every character of [s] is in the class [p]. *)
Fixpoint all_chars (p : ascii -> bool) (s : string) : bool :=
  match s with
  | EmptyString => true
  | String a s' => p a && all_chars p s'
  end.

(** [s] starts with a character of the class [p]. *)
Definition head_in (p : ascii -> bool) (s : string) : bool :=
  match s with
  | String a _ => p a
  | EmptyString => false
  end.

(** The first [n] characters, [s[:n]]. *)
Fixpoint take (n : nat) (s : string) : string :=
  match n, s with
  | S n', String a s' => String a (take n' s')
  | _, _ => EmptyString
  end.

(** The double quote, for the selectors that contain one. *)
Definition dq : string := String (Ascii.ascii_of_nat 34) EmptyString.
Definition quoted (s : string) : string := dq +:+ s +:+ dq.

(** Exceptions (all of them subclasses of [Exception]). *)
Inductive exn : Type :=
| PlaywrightTimeout
| PlaywrightError
| ValueError
| TypeError
| AttributeError
| IndexError.

Inductive result (A : Type) : Type :=
| Ok (a : A)
| Raise (e : exn).
Arguments Ok {A} a.
Arguments Raise {A} e.

Definition digit_value (a : ascii) : Z := Z.of_N (code a) - 48.

Fixpoint int_digits (acc : Z) (s : string) : option Z :=
  match s with
  | EmptyString => Some acc
  | String a s' =>
      if is_digit a then int_digits (10 * acc + digit_value a) s' else None
  end.

(** [int(s)] on the strings the bot converts: runs of decimal digits, where
    the empty run is a [ValueError].  (Signs, surrounding white space and
    underscores, which [int] also accepts, never reach it: every argument
    comes from a [\d+] group or from a [[\d,]+] group with the commas
    removed.) *)
Definition int (s : string) : result Z :=
  match s with
  | EmptyString => Raise ValueError
  | _ => match int_digits 0 s with
         | Some n => Ok n
         | None => Raise ValueError
         end
  end.

(** The digits of a natural number in groups of three, as the format
    specification [,] prints them. *)
Fixpoint group_thousands (digits : list ascii) : list ascii :=
  match digits with
  | a :: b :: c :: ((_ :: _) as rest) =>
      a :: b :: c :: ","%char :: group_thousands rest
  | _ => digits
  end.

Definition string_of_chars (l : list ascii) : string :=
  fold_right String EmptyString l.

Fixpoint chars_of_string (s : string) : list ascii :=
  match s with
  | EmptyString => []
  | String a s' => a :: chars_of_string s'
  end.

(** [f"{n:,}"] *)
Definition format_thousands (n : Z) : string :=
  let body :=
    string_of_chars
      (rev (group_thousands (rev (chars_of_string (pretty (Z.abs n)))))) in
  if n <? 0 then "-" +:+ body else body.

(** [f"{n}"] *)
Definition str_of_int (n : Z) : string := pretty n.

End Py.

(** ** Regular expressions

    The fragment of [re] the bot uses, with the backtracking search of
    [re.search]: the first position where a match exists wins, and at each
    position the quantifiers are greedy. *)

Module Re.

Inductive regex : Type :=
| Eps                             (* the empty pattern *)
| Lit (c : ascii)                 (* one literal character *)
| Class (p : ascii -> bool)       (* one character of a class *)
| Cat (r1 r2 : regex)
| Opt (r : regex)                 (* [r?] *)
| Star (p : ascii -> bool)        (* [p*] for a class [p] *)
| Group (n : nat) (r : regex).    (* the [n]-th pair of parentheses *)

(** [p+] *)
Definition Plus (p : ascii -> bool) : regex := Cat (Class p) (Star p).

(** A literal word. *)
Fixpoint Word (w : string) : regex :=
  match w with
  | EmptyString => Eps
  | String a w' => Cat (Lit a) (Word w')
  end.

(** The groups of a match: number and matched text. *)
Definition groups := list (nat * string).

Fixpoint group (g : groups) (n : nat) : option string :=
  match g with
  | [] => None
  | (m, s) :: g' => if Nat.eqb m n then Some s else group g' n
  end.

Section Matcher.
(** [re.IGNORECASE] *)
Variable ignorecase : bool.

Definition lit_matches (c a : ascii) : bool :=
  if ignorecase then Ascii.eqb (Py.lower_char a) (Py.lower_char c)
  else Ascii.eqb a c.

(** Greedy [p*]: as many characters as possible, giving them back one by
    one while the rest of the pattern fails. *)
Fixpoint star (p : ascii -> bool) (s : string)
    (k : string -> option groups) : option groups :=
  match s with
  | String a s' =>
      if p a then
        match star p s' k with
        | Some g => Some g
        | None => k s
        end
      else k s
  | EmptyString => k s
  end.

(** [matches r s g k]: match [r] at the start of [s], then the rest of the
    pattern [k] on what is left. *)
Fixpoint matches (r : regex) (s : string) (g : groups)
    (k : string -> groups -> option groups) : option groups :=
  match r with
  | Eps => k s g
  | Lit c =>
      match s with
      | String a s' => if lit_matches c a then k s' g else None
      | EmptyString => None
      end
  | Class p =>
      match s with
      | String a s' => if p a then k s' g else None
      | EmptyString => None
      end
  | Cat r1 r2 => matches r1 s g (fun s' g' => matches r2 s' g' k)
  | Opt r1 =>
      match matches r1 s g k with
      | Some g' => Some g'
      | None => k s g
      end
  | Star p => star p s (fun s' => k s' g)
  | Group n r1 =>
      matches r1 s g
        (fun s' g' =>
           k s' ((n, Py.take (String.length s - String.length s') s) :: g'))
  end.

(** [re.match]: a match at the start of [s]. *)
Definition match_here (r : regex) (s : string) : option groups :=
  matches r s [] (fun _ g => Some g).

(** [re.search]: the leftmost match. *)
Fixpoint search (r : regex) (s : string) : option groups :=
  match match_here r s with
  | Some g => Some g
  | None =>
      match s with
      | EmptyString => None
      | String _ s' => search r s'
      end
  end.
End Matcher.

Definition digit_or_comma (a : ascii) : bool :=
  Py.is_digit a || Ascii.eqb a ","%char.

End Re.

(** ** The patterns of the bot *)

Module Patterns.
Import Re.

(** [r'(\d+)\s*/\s*(\d+)'] *)
Definition pagination : regex :=
  Cat (Group 1 (Plus Py.is_digit))
 (Cat (Star Py.is_space)
 (Cat (Lit "/")
 (Cat (Star Py.is_space)
      (Group 2 (Plus Py.is_digit))))).

(** [r'/photos/(\d+)\.'] *)
Definition photo_id : regex :=
  Cat (Word "/photos/") (Cat (Group 1 (Plus Py.is_digit)) (Lit ".")).

(** [r'(\d+)\s*Unit'] *)
Definition units : regex :=
  Cat (Group 1 (Plus Py.is_digit)) (Cat (Star Py.is_space) (Word "Unit")).

(** [r'(\d+)\s*days?'], used with [re.IGNORECASE] *)
Definition days : regex :=
  Cat (Group 1 (Plus Py.is_digit))
 (Cat (Star Py.is_space) (Cat (Word "day") (Opt (Lit "s")))).

(** [r'Eligible Income:?\s*\$?([\d,]+)\s*-\s*\$?([\d,]+)'], used with
    [re.IGNORECASE] *)
Definition income_range : regex :=
  Cat (Word "Eligible Income")
 (Cat (Opt (Lit ":"))
 (Cat (Star Py.is_space)
 (Cat (Opt (Lit "$"))
 (Cat (Group 1 (Plus digit_or_comma))
 (Cat (Star Py.is_space)
 (Cat (Lit "-")
 (Cat (Star Py.is_space)
 (Cat (Opt (Lit "$"))
      (Group 2 (Plus digit_or_comma)))))))))).

End Patterns.

(** [match.group(n)] of a group that took part in the match. *)
Definition group_text (g : Re.groups) (n : nat) : string :=
  default EmptyString (Re.group g n).

(** ** [_parse_income_range] *)

Definition _parse_income_range (text : string)
    : Py.result (option Z * option Z) :=
  match Re.search true Patterns.income_range text with
  | Some m =>
      match Py.int (Py.remove_char "," (group_text m 1)) with
      | Py.Raise e => Py.Raise e
      | Py.Ok min_income =>
          match Py.int (Py.remove_char "," (group_text m 2)) with
          | Py.Raise e => Py.Raise e
          | Py.Ok max_income => Py.Ok (Some min_income, Some max_income)
          end
      end
  | None => Py.Ok (None, None)
  end.

(** ** The browser driver

    The calls of the Playwright API the bot makes.  [element] is the type of
    element handles; the answer type of a call is its index. *)

Inductive call (element : Type) : Type -> Type :=
| Start : call element unit
    (* [sync_playwright().start()], [chromium.launch], [new_page] *)
| Close : call element unit
    (* [browser.close()], [playwright.stop()] *)
| Goto (url : string) : call element unit
| Url : call element string
| Reload : call element unit
| WaitForSelector (selector : string) (timeout : Z)
    : call element (option element)
| QuerySelector (selector : string) : call element (option element)
| QuerySelectorAll (selector : string) : call element (list element)
| TextContent (selector : string) : call element (option string)
| ElQuerySelector (e : element) (selector : string)
    : call element (option element)
| ElTextContent (e : element) : call element (option string)
| ElGetAttribute (e : element) (name : string) : call element (option string)
| ElClick (e : element) : call element unit
| ElHover (e : element) : call element unit
| ElFill (e : element) (value : string) : call element unit
| ElPress (e : element) (key : string) : call element unit
| ElEvaluate (e : element) (expression : string) : call element string.

Arguments Start {element}.
Arguments Close {element}.
Arguments Goto {element} url.
Arguments Url {element}.
Arguments Reload {element}.
Arguments WaitForSelector {element} selector timeout.
Arguments QuerySelector {element} selector.
Arguments QuerySelectorAll {element} selector.
Arguments TextContent {element} selector.
Arguments ElQuerySelector {element} e selector.
Arguments ElTextContent {element} e.
Arguments ElGetAttribute {element} e name.
Arguments ElClick {element} e.
Arguments ElHover {element} e.
Arguments ElFill {element} e value.
Arguments ElPress {element} e key.
Arguments ElEvaluate {element} e expression.

(** What the bot did to the outside, in order. *)
Inductive event (element : Type) : Type :=
| Called {A : Type} (c : call element A)
| Slept (lo hi : Z).   (* [time.sleep] of a duration in [lo, hi] ms *)
Arguments Called {element A} c.
Arguments Slept {element} lo hi.

(** A browser: how it answers a call (with a value or an exception) and how
    it changes, also while the bot sleeps. *)
Record browser (world element : Type) : Type := Browser {
  answer : forall A, call element A -> world -> Py.result A * world;
  elapse : Z -> Z -> world -> world
}.
Arguments Browser {world element} answer elapse.
Arguments answer {world element} b {A} c w.
Arguments elapse {world element} b lo hi w.

(** The state the bot runs in: the browser's world and the trace so far. *)
Record state (world element : Type) : Type := State {
  world_of : world;
  trace : list (event element)
}.
Arguments State {world element} world_of trace.
Arguments world_of {world element} s.
Arguments trace {world element} s.

(** ** The monad of the bot: state and exceptions *)

Section Monad.
Context {world element : Type}.

Definition M (A : Type) : Type :=
  state world element -> Py.result A * state world element.

Definition ret {A} (a : A) : M A := fun s => (Py.Ok a, s).

Definition bind {A B} (m : M A) (f : A -> M B) : M B :=
  fun s =>
    match m s with
    | (Py.Ok a, s') => f a s'
    | (Py.Raise e, s') => (Py.Raise e, s')
    end.

Definition raise {A} (e : Py.exn) : M A := fun s => (Py.Raise e, s).

(** A pure computation that may raise. *)
Definition lift {A} (r : Py.result A) : M A := fun s => (r, s).

(** [try: m except Exception as e: h e] *)
Definition try_except {A} (m : M A) (h : Py.exn -> M A) : M A :=
  fun s =>
    match m s with
    | (Py.Ok a, s') => (Py.Ok a, s')
    | (Py.Raise e, s') => h e s'
    end.

(** [try: m except PlaywrightTimeout: h] *)
Definition try_timeout {A} (m : M A) (h : M A) : M A :=
  try_except m
    (fun e => match e with Py.PlaywrightTimeout => h | _ => raise e end).

Variable b : browser world element.

Definition do {A} (c : call element A) : M A :=
  fun s =>
    let (r, w) := answer b c (world_of s) in
    (r, State w (trace s ++ [Called c])).

(** [time.sleep(random.uniform(lo, hi))], in milliseconds *)
Definition sleep_uniform (lo hi : Z) : M unit :=
  fun s => (Py.Ok tt, State (elapse b lo hi (world_of s)) (trace s ++ [Slept lo hi])).

(** [time.sleep(ms / 1000)] *)
Definition sleep (ms : Z) : M unit := sleep_uniform ms ms.

End Monad.

Declare Scope bot_scope.
Delimit Scope bot_scope with bot.
Notation "x <- m ;; k" := (bind m (fun x => k))
  (at level 100, m at next level, right associativity) : bot_scope.
Notation "m ;; k" := (bind m (fun _ => k))
  (at level 100, right associativity) : bot_scope.
Local Open Scope bot_scope.

(** ** Data *)

Module Info.
(** [LotteryInfo] *)
Record LotteryInfo : Type := Build {
  id : string;
  title : string;
  lottery_type : string;              (* ['rental'] or ['sale'] *)
  location : option string;
  units_available : option Z;
  days_until_closing : option Z;
  min_income : option Z;
  max_income : option Z;
  is_applied : bool;
  url : option string
}.
End Info.
Abbreviation LotteryInfo := Info.LotteryInfo.

Module Result.
(** The dictionary [apply_to_lottery_by_click] returns. *)
Record dict : Type := Build {
  success : bool;
  message : string;
  already_applied : bool;
  eligible : bool;
  title : string
}.
Definition set_success (v : bool) (r : dict) : dict :=
  Build v (message r) (already_applied r) (eligible r) (title r).
Definition set_message (v : string) (r : dict) : dict :=
  Build (success r) v (already_applied r) (eligible r) (title r).
Definition set_already_applied (v : bool) (r : dict) : dict :=
  Build (success r) (message r) v (eligible r) (title r).
Definition set_eligible (v : bool) (r : dict) : dict :=
  Build (success r) (message r) (already_applied r) v (title r).
Definition set_title (v : string) (r : dict) : dict :=
  Build (success r) (message r) (already_applied r) (eligible r) v.
End Result.

(** The settings [HousingConnectBot.__init__] reads from the environment. *)
Record HousingConnectBot : Type := Bot {
  username : option string;
  password : option string;
  annual_income : Z
}.

Definition BASE_URL : string := "https://housingconnect.nyc.gov/PublicWeb".
Definition LOGIN_URL : string := BASE_URL +:+ "/login".
Definition LOTTERIES_URL : string := BASE_URL +:+ "/search-lotteries".

(** Truth value of a string: non-empty. *)
Definition truthy (s : string) : bool := negb (String.eqb s EmptyString).

(** [range(lo, hi)] *)
Definition range (lo hi : Z) : list Z :=
  (fun i => lo + Z.of_nat i) <$> seq 0 (Z.to_nat (hi - lo)).

(** [seq[i]] for a Python list: negative indices count from the end. *)
Definition index {A} (l : list A) (i : Z) : Py.result A :=
  let n := Z.of_nat (length l) in
  let j := if i <? 0 then i + n else i in
  if (0 <=? j) && (j <? n) then
    match l !! Z.to_nat j with
    | Some x => Py.Ok x
    | None => Py.Raise Py.IndexError
    end
  else Py.Raise Py.IndexError.

(** ** The bot *)

Section Bot.
Context {world element : Type}.
Variable b : browser world element.
Variable self : HousingConnectBot.

Local Abbreviation M := (@M world element).
Local Abbreviation do := (do b).
Local Abbreviation sleep := (sleep b).
Local Abbreviation sleep_uniform := (sleep_uniform b).

(** [o.text_content().strip()] where [text_content()] answered [o]: on
    [None] the attribute lookup raises. *)
Definition stripped (o : option string) : M string :=
  match o with
  | Some t => ret (Py.strip t)
  | None => raise Py.AttributeError
  end.

(** [re.search(r, o)] where [o] may be [None], which [re] refuses. *)
Definition re_search (ignorecase : bool) (r : Re.regex) (o : option string)
    : M (option Re.groups) :=
  match o with
  | Some t => ret (Re.search ignorecase r t)
  | None => raise Py.TypeError
  end.

Definition tab_selector (tab_text : string) : string :=
  "span.font-lg:text-is(" +:+ Py.quoted tab_text +:+ ")".

(** *** [navigate_to_lotteries] *)
Definition navigate_to_lotteries (lottery_type : string) : M bool :=
  do (Goto LOTTERIES_URL);;
  sleep 3000;;
  try_timeout
    (_ <- do (WaitForSelector "app-lottery-grid-card" 15000);; ret tt)
    (ret tt);;
  let tab_text := if String.eqb lottery_type "rental" then "Rentals" else "Sales" in
  returned <-
    try_except
      (tab <- do (QuerySelector (tab_selector tab_text));;
       match tab with
       | Some tab => do (ElClick tab);; sleep 2000;; ret (Some true)
       | None =>
           tab <- do (QuerySelector ("text=" +:+ Py.quoted tab_text));;
           match tab with
           | Some tab => do (ElClick tab);; sleep 2000;; ret (Some true)
           | None => ret None
           end
       end)
      (fun _ => ret None);;
  match returned with
  | Some r => ret r
  | None => ret true
  end.

(** *** [_get_total_pages] *)
Definition _get_total_pages : M Z :=
  returned <-
    try_except
      (pagination_text <- do (QuerySelector ".small-screen");;
       match pagination_text with
       | Some pagination_text =>
           text <- do (ElTextContent pagination_text);;
           m <- re_search false Patterns.pagination text;;
           match m with
           | Some m => n <- lift (Py.int (group_text m 2));; ret (Some n)
           | None => ret None
           end
       | None => ret None
       end)
      (fun _ => ret None);;
  match returned with
  | Some n => ret n
  | None => ret 1
  end.

(** *** [_go_to_page] *)

Definition first_card_src : M (option string) :=
  first_card <- do (QuerySelector "app-lottery-grid-card img.card-image");;
  match first_card with
  | Some first_card => do (ElGetAttribute first_card "src")
  | None => ret None
  end.

(** The scan [for link in links] for the link whose text is the page
    number. *)
Fixpoint find_page_link (page_num : Z) (links : list element)
    : M (option element) :=
  match links with
  | [] => ret None
  | link :: links' =>
      t <- do (ElTextContent link);;
      t <- stripped t;;
      if String.eqb t (Py.str_of_int page_num) then ret (Some link)
      else find_page_link page_num links'
  end.

(** [for _ in range(n)]: wait until the first card's image changes. *)
Fixpoint wait_for_change (n : nat) (old_src : option string) : M bool :=
  match n with
  | O => ret false
  | S n' =>
      sleep 500;;
      new_src <- first_card_src;;
      if bool_decide (new_src = old_src) then wait_for_change n' old_src
      else sleep 500;; ret true
  end.

Definition _go_to_page (page_num : Z) : M bool :=
  returned <-
    try_except
      (old_src <- first_card_src;;
       page_link <-
         do (QuerySelector
               (".ngx-pagination li a >> text=" +:+
                Py.quoted (Py.str_of_int page_num)));;
       page_link <-
         match page_link with
         | Some l => ret (Some l)
         | None =>
             links <- do (QuerySelectorAll ".ngx-pagination li a");;
             find_page_link page_num links
         end;;
       match page_link with
       | Some page_link =>
           do (ElClick page_link);;
           _ <- wait_for_change 10 old_src;;
           ret (Some true)
       | None => ret None
       end)
      (fun _ => ret None);;
  match returned with
  | Some r => ret r
  | None => ret false
  end.

(** *** [_parse_lottery_card]

    The body of the [try] is cut at its comments: one definition per
    field. *)

(** "Extract lottery ID from image src URL" *)
Definition parse_id (card : element) : M (option string) :=
  img <- do (ElQuerySelector card "img.card-image");;
  match img with
  | Some img =>
      src <- do (ElGetAttribute img "src");;
      match src with
      | Some src =>
          if truthy src then
            match Re.search false Patterns.photo_id src with
            | Some m => ret (Some (group_text m 1))
            | None => ret None
            end
          else ret None
      | None => ret None
      end
  | None => ret None
  end.

(** "Get title from .title.title-h3" *)
Definition parse_title (card : element) : M string :=
  title_el <- do (ElQuerySelector card ".title.title-h3");;
  match title_el with
  | Some title_el => t <- do (ElTextContent title_el);; stripped t
  | None => ret "Unknown"
  end.

(** "Get location from .location" *)
Definition parse_location (card : element) : M (option string) :=
  location_el <- do (ElQuerySelector card ".location");;
  match location_el with
  | Some location_el =>
      t <- do (ElTextContent location_el);; t <- stripped t;; ret (Some t)
  | None => ret None
  end.

(** "Get units available" and "Get days until closing": the number in
    front of a word, in the text of a child element. *)
Definition parse_count (card : element) (selector : string)
    (ignorecase : bool) (r : Re.regex) : M (option Z) :=
  el <- do (ElQuerySelector card selector);;
  match el with
  | Some el =>
      text <- do (ElTextContent el);;
      m <- re_search ignorecase r text;;
      match m with
      | Some m => n <- lift (Py.int (group_text m 1));; ret (Some n)
      | None => ret None
      end
  | None => ret None
  end.

(** "Check if already applied" *)
Definition parse_applied (card : element) : M bool :=
  applied_btn <- do (ElQuerySelector card "button.btn-grey-90");;
  match applied_btn with
  | Some applied_btn =>
      t <- do (ElTextContent applied_btn);;
      btn_text <- stripped t;;
      ret (Py.contains "Applied" btn_text)
  | None => ret false
  end.

(** [if lottery_id: return LotteryInfo(...)], else [None] *)
Definition make_info (lottery_id : option string) (title lottery_type : string)
    (location : option string) (units days_closing : option Z)
    (is_applied : bool) : option LotteryInfo :=
  match lottery_id with
  | Some lottery_id =>
      if truthy lottery_id then
        Some (Info.Build lottery_id title lottery_type location units
                days_closing None None is_applied
                (Some (BASE_URL +:+ "/lottery-details/" +:+ lottery_id)))
      else None
  | None => None
  end.

(** The body of the [try]. *)
Definition card_fields (card : element) (lottery_type : string)
    : M (option LotteryInfo) :=
  lottery_id <- parse_id card;;
  title <- parse_title card;;
  location <- parse_location card;;
  units <- parse_count card ".pb-xs.title-h6" false Patterns.units;;
  days_closing <- parse_count card ".prefix.title-h4" true Patterns.days;;
  is_applied <- parse_applied card;;
  ret (make_info lottery_id title lottery_type location units days_closing
         is_applied).

Definition _parse_lottery_card (card : element) (lottery_type : string)
    : M (option LotteryInfo) :=
  try_except (card_fields card lottery_type) (fun _ => ret None).

(** *** [_get_lotteries_from_current_page] *)

(** [for i, card in enumerate(cards)] *)
Fixpoint parse_cards (lottery_type : string) (cards : list element)
    (lotteries : list LotteryInfo) : M (list LotteryInfo) :=
  match cards with
  | [] => ret lotteries
  | card :: cards' =>
      lottery_info <- _parse_lottery_card card lottery_type;;
      match lottery_info with
      | Some lottery_info =>
          parse_cards lottery_type cards' (lotteries ++ [lottery_info])
      | None => parse_cards lottery_type cards' lotteries
      end
  end.

Definition _get_lotteries_from_current_page (lottery_type : string)
    : M (list LotteryInfo) :=
  sleep 1000;;
  cards <- do (QuerySelectorAll "app-lottery-grid-card");;
  match cards with
  | [] => ret []
  | _ => parse_cards lottery_type cards []
  end.

(** *** [get_lottery_ids] *)

(** [for lottery in page_lotteries]: keep the lotteries whose id is new. *)
Fixpoint add_new (page_lotteries : list LotteryInfo)
    (seen_ids : gset string) (all_lotteries : list LotteryInfo)
    : gset string * list LotteryInfo :=
  match page_lotteries with
  | [] => (seen_ids, all_lotteries)
  | lottery :: rest =>
      if decide (Info.id lottery ∈ seen_ids) then
        add_new rest seen_ids all_lotteries
      else
        add_new rest ({[Info.id lottery]} ∪ seen_ids)
          (all_lotteries ++ [lottery])
  end.

(** [for page_num in range(1, total_pages + 1)] *)
Fixpoint collect_pages (lottery_type : string) (pages : list Z)
    (seen_ids : gset string) (all_lotteries : list LotteryInfo)
    : M (list LotteryInfo) :=
  match pages with
  | [] => ret all_lotteries
  | page_num :: pages' =>
      (if 1 <? page_num then _ <- _go_to_page page_num;; ret tt else ret tt);;
      page_lotteries <- _get_lotteries_from_current_page lottery_type;;
      let (seen_ids', all_lotteries') :=
        add_new page_lotteries seen_ids all_lotteries in
      collect_pages lottery_type pages' seen_ids' all_lotteries'
  end.

Definition get_lottery_ids (lottery_type : string) : M (list LotteryInfo) :=
  _ <- navigate_to_lotteries lottery_type;;
  total_pages <- _get_total_pages;;
  collect_pages lottery_type (range 1 (total_pages + 1)) ∅ [].

(** *** [login] *)

Definition has_text (tag text : string) : string :=
  tag +:+ ":has-text(" +:+ Py.quoted text +:+ ")".

Definition attr_is (tag name value : string) : string :=
  tag +:+ "[" +:+ name +:+ "=" +:+ Py.quoted value +:+ "]".

Definition login_link_selector : string :=
  has_text "a" "Log In" +:+ ", " +:+ has_text "a" "Login" +:+ ", " +:+
  has_text "a" "Sign In".

Definition email_input_selector : string :=
  attr_is "input" "type" "email" +:+ ", " +:+
  attr_is "input" "type" "text" +:+ ", " +:+
  attr_is "input" "name" "email" +:+ ", input#email".

Definition login_submit_selector : string :=
  attr_is "button" "type" "submit" +:+ ", " +:+
  attr_is "input" "type" "submit" +:+ ", " +:+
  has_text "button" "Log In" +:+ ", " +:+ has_text "button" "Login".

(** The test on [current_url] that ends [login]. *)
Definition logged_in_url (current_url : string) : bool :=
  Py.contains "housingconnect.nyc.gov/PublicWeb" current_url
  && negb (Py.contains "id4/account/login" current_url).

(** [not self.username or not self.password] *)
Definition credentials_missing : bool :=
  negb (from_option truthy false (username self))
  || negb (from_option truthy false (password self)).

(** "Check if login succeeded" *)
Definition login_succeeded : M bool :=
  current_url <- do Url;;
  ret (logged_in_url current_url).

Definition login : M bool :=
  if credentials_missing then ret false
  else
    do (Goto BASE_URL);;
    sleep 3000;;
    try_except
      (login_link <- do (QuerySelector login_link_selector);;
       match login_link with
       | Some login_link =>
           do (ElClick login_link);;
           sleep 3000;;
           _ <- do Url;;
           email_input <- do (WaitForSelector email_input_selector 10000);;
           password_input <-
             do (QuerySelector (attr_is "input" "type" "password"));;
           match email_input, password_input with
           | Some email_input, Some password_input =>
               do (ElFill email_input (default EmptyString (username self)));;
               sleep 500;;
               do (ElFill password_input (default EmptyString (password self)));;
               sleep 500;;
               submit_btn <- do (QuerySelector login_submit_selector);;
               match submit_btn with
               | Some submit_btn => do (ElClick submit_btn)
               | None => do (ElPress password_input "Enter")
               end;;
               sleep 5000;;
               login_succeeded
           | _, _ => ret false
           end
       | None => ret false
       end)
      (fun _ => ret false).

(** *** [apply_to_lottery_by_click]

    The function is one long sequence with early returns; it is cut at the
    comments that separate its steps, each definition being the function
    from that step to its end. *)

Definition applied_button_selector : string :=
  has_text "button.btn-grey-90" "Applied".

(** [applied_btn and 'Applied' in (applied_btn.text_content() or '')] *)
Definition card_is_applied (card : element) : M bool :=
  applied_btn <- do (ElQuerySelector card "button.btn-grey-90");;
  match applied_btn with
  | Some applied_btn =>
      t <- do (ElTextContent applied_btn);;
      ret (Py.contains "Applied" (default EmptyString t))
  | None => ret false
  end.

(** "Navigate back to lotteries list" to the end. *)
Definition back_to_list (lottery_type : string) (result : Result.dict)
    : M Result.dict :=
  do (Goto LOTTERIES_URL);;
  sleep_uniform 3000 5000;;
  try_timeout
    (_ <- do (WaitForSelector "app-lottery-grid-card" 45000);; ret tt)
    (do Reload;;
     sleep_uniform 5000 8000;;
     _ <- do (WaitForSelector "app-lottery-grid-card" 60000);; ret tt);;
  tab <-
    (if String.eqb lottery_type "sale"
     then do (QuerySelector (tab_selector "Sales"))
     else do (QuerySelector (tab_selector "Rentals")));;
  match tab with
  | Some tab => do (ElClick tab);; sleep_uniform 2000 3000
  | None => ret tt
  end;;
  ret result.

(** "Check for success" to the end. *)
Definition check_success (lottery_type : string) (result : Result.dict)
    : M Result.dict :=
  applied_check <- do (QuerySelector applied_button_selector);;
  result <-
    match applied_check with
    | Some _ =>
        ret (Result.set_message "Successfully applied!"
               (Result.set_success true result))
    | None =>
        u <- do Url;;
        on_login <-
          (if Py.contains "login" (Py.lower u) then ret true
           else u' <- do Url;; ret (Py.contains "id4/account" (Py.lower u')));;
        if on_login : bool then
          ret (Result.set_message "Redirected to login - not logged in" result)
        else
          ret (Result.set_message "Application submitted (unverified)"
                 (Result.set_success true result))
    end;;
  back_to_list lottery_type result.

(** "Handle confirmation dialog" *)
Definition confirm_dialog : M unit :=
  try_timeout
    (_ <- do (WaitForSelector ".mat-checkbox-inner-container" 5000);;
     checkbox_box <- do (QuerySelector ".mat-checkbox-inner-container");;
     match checkbox_box with
     | Some checkbox_box => do (ElClick checkbox_box);; sleep 500
     | None => ret tt
     end;;
     submit_btn <-
       do (QuerySelector
             (has_text "button" "Submit" +:+ ", " +:+ has_text "span" "Submit"));;
     match submit_btn with
     | Some submit_btn =>
         tag_name <- do (ElEvaluate submit_btn "el => el.tagName");;
         submit_btn <-
           (if String.eqb tag_name "SPAN"
            then do (QuerySelector
                       ("button:has(" +:+ has_text "span" "Submit" +:+ ")"))
            else ret (Some submit_btn));;
         match submit_btn with
         | Some submit_btn => do (ElClick submit_btn);; sleep 3000
         | None => ret tt
         end
     | None => ret tt
     end)
    (ret tt).

(** "Find Apply Now button" to the end. *)
Definition submit_application (lottery_type : string) (result : Result.dict)
    : M Result.dict :=
  apply_btn <- do (QuerySelector (has_text "a.btn.btn-primary" "Apply Now"));;
  apply_btn <-
    match apply_btn with
    | Some a => ret (Some a)
    | None => do (QuerySelector (has_text "a.btn-primary" "Apply Now"))
    end;;
  apply_btn <-
    match apply_btn with
    | Some a => ret (Some a)
    | None => do (QuerySelector (has_text "a" "Apply Now"))
    end;;
  match apply_btn with
  | None => ret (Result.set_message "Could not find Apply Now button" result)
  | Some apply_btn =>
      do (ElClick apply_btn);;
      sleep 2000;;
      confirm_dialog;;
      check_success lottery_type result
  end.

(** [f"Not eligible: ${self.annual_income:,} outside ${min_income:,} - ${max_income:,}"] *)
Definition not_eligible_message (min_income max_income : Z) : string :=
  "Not eligible: $" +:+ Py.format_thousands (annual_income self) +:+
  " outside $" +:+ Py.format_thousands min_income +:+
  " - $" +:+ Py.format_thousands max_income.

(** "Now on detail page - check eligibility" to the end. *)
Definition check_eligibility (lottery_type : string) (result : Result.dict)
    : M Result.dict :=
  t <- do (TextContent "body");;
  let page_text := default EmptyString t in
  range <- lift (_parse_income_range page_text);;
  match range with
  | (Some min_income, Some max_income) =>
      if negb ((min_income <=? annual_income self)
               && (annual_income self <=? max_income))
      then
        ret (Result.set_message (not_eligible_message min_income max_income)
               (Result.set_eligible false result))
      else submit_application lottery_type result
  | _ => submit_application lottery_type result
  end.

(** "Check if already applied (on detail page)" to the end. *)
Definition check_detail_applied (lottery_type : string) (result : Result.dict)
    : M Result.dict :=
  applied_indicator <- do (QuerySelector applied_button_selector);;
  applied_indicator <-
    match applied_indicator with
    | Some _ => ret true
    | None =>
        a <- do (QuerySelector (has_text "button" "Applied"));;
        ret (bool_decide (is_Some a))
    end;;
  applied_indicator <-
    (if applied_indicator : bool then ret true
     else
       t <- do (TextContent "body");;
       let page_text_check := default EmptyString t in
       ret (Py.contains "You have already applied" page_text_check
            || Py.contains "Application Submitted" page_text_check));;
  if applied_indicator : bool then
    ret (Result.set_message "Already applied"
           (Result.set_already_applied true result))
  else check_eligibility lottery_type result.

Definition detail_ready_selector : string :=
  has_text "a.btn-primary" "Apply Now" +:+ ", " +:+ applied_button_selector
  +:+ ", " +:+ has_text "div" "Eligible Income" +:+ ", " +:+
  has_text ".col-md-6" "Eligible Income".

(** "Hover and click View Details" to the end. *)
Definition open_detail (lottery_type : string) (card : element)
    (result : Result.dict) : M Result.dict :=
  do (ElHover card);;
  sleep 500;;
  view_btn <- do (ElQuerySelector card (has_text "button" "View Details"));;
  match view_btn with
  | None =>
      ret (Result.set_message "Could not find View Details button" result)
  | Some view_btn =>
      do (ElClick view_btn);;
      sleep_uniform 3000 5000;;
      try_timeout
        (_ <- do (WaitForSelector detail_ready_selector 45000);; ret tt)
        (do Reload;;
         sleep_uniform 5000 8000;;
         try_timeout
           (_ <- do (WaitForSelector
                       (has_text "a.btn-primary" "Apply Now" +:+ ", " +:+
                        applied_button_selector) 45000);;
            ret tt)
           (sleep 10000));;
      sleep_uniform 2000 4000;;
      check_detail_applied lottery_type result
  end.

Definition out_of_range_message (card_index : Z) : string :=
  "Card index " +:+ Py.str_of_int card_index +:+ " out of range".

Definition initial_result : Result.dict :=
  Result.Build false EmptyString false true "Unknown".

(** "Make sure we're on the lotteries page" *)
Definition ensure_on_list (lottery_type : string) : M unit :=
  u <- do Url;;
  if negb (Py.contains "search-lotteries" u)
  then _ <- navigate_to_lotteries lottery_type;; ret tt
  else ret tt.

Definition apply_to_lottery_by_click (card_index : Z) (lottery_type : string)
    : M Result.dict :=
  let result := initial_result in
  ensure_on_list lottery_type;;
  cards <- do (QuerySelectorAll "app-lottery-grid-card");;
  if Z.of_nat (length cards) <=? card_index then
    ret (Result.set_message (out_of_range_message card_index) result)
  else
    card <- lift (index cards card_index);;
    title_el <- do (ElQuerySelector card ".title.title-h3");;
    title <-
      match title_el with
      | Some title_el => t <- do (ElTextContent title_el);; stripped t
      | None => ret "Unknown"
      end;;
    let result := Result.set_title title result in
    is_applied <- card_is_applied card;;
    if is_applied : bool then
      ret (Result.set_message "Already applied"
             (Result.set_already_applied true result))
    else open_detail lottery_type card result.

(** ** [apply_all_sales.py] *)

(** An entry of [card_data]. *)
Record CardData : Type := Card {
  card_index_of : Z;
  card_title : string;
  card_is_applied_flag : bool
}.

(** [random_delay(min_sec, max_sec)] *)
Definition random_delay (min_sec max_sec : Z) : M unit :=
  sleep_uniform (1000 * min_sec) (1000 * max_sec).

(** "Collect card data FIRST before any navigation":
    [for i, card in enumerate(cards)] *)
Fixpoint collect_card_data (i : Z) (cards : list element)
    (card_data : list CardData) : M (list CardData) :=
  match cards with
  | [] => ret card_data
  | card :: cards' =>
      title_el <- do (ElQuerySelector card ".title.title-h3");;
      title <-
        match title_el with
        | Some title_el => t <- do (ElTextContent title_el);; stripped t
        | None => ret ("Unknown_" +:+ Py.str_of_int i)
        end;;
      is_applied <- card_is_applied card;;
      collect_card_data (i + 1) cards' (card_data ++ [Card i title is_applied])
  end.

(** "Process each card": [for data in card_data] *)
Fixpoint process_cards (page_num : Z) (card_data : list CardData)
    (all_results : list Result.dict) (processed_titles : gset string)
    : M (list Result.dict * gset string) :=
  match card_data with
  | [] => ret (all_results, processed_titles)
  | data :: rest =>
      let card_index := card_index_of data in
      let title := card_title data in
      if decide (title ∈ processed_titles) then
        process_cards page_num rest all_results processed_titles
      else
        let processed_titles := {[title]} ∪ processed_titles in
        if card_is_applied_flag data then
          process_cards page_num rest
            (all_results ++
               [Result.Build false "Already applied" true true title])
            processed_titles
        else
          _ <- navigate_to_lotteries "sale";;
          random_delay 2 3;;
          (if 1 <? page_num
           then _ <- _go_to_page page_num;; random_delay 2 3
           else ret tt);;
          result <- apply_to_lottery_by_click card_index "sale";;
          random_delay 2 4;;
          process_cards page_num rest (all_results ++ [result])
            processed_titles
  end.

(** [for page_num in range(1, total_pages + 1)] *)
Fixpoint process_pages (pages : list Z)
    (all_results : list Result.dict) (processed_titles : gset string)
    : M (list Result.dict * gset string) :=
  match pages with
  | [] => ret (all_results, processed_titles)
  | page_num :: pages' =>
      (if 1 <? page_num
       then _ <- _go_to_page page_num;; random_delay 2 4
       else ret tt);;
      cards <- do (QuerySelectorAll "app-lottery-grid-card");;
      card_data <- collect_card_data 0 cards [];;
      r <- process_cards page_num card_data all_results processed_titles;;
      process_pages pages' (fst r) (snd r)
  end.

(** [with HousingConnectBot(headless=False) as bot: body] *)
Definition with_bot {A} (body : M A) : M A :=
  do Start;;
  r <- try_except body (fun e => do Close;; raise e);;
  do Close;;
  ret r.

(** The four lists of the final summary. *)
Definition summary (all_results : list Result.dict)
    : list Result.dict * list Result.dict * list Result.dict
      * list Result.dict :=
  (filter (fun r => Result.success r = true) all_results,
   filter (fun r => Result.already_applied r = true) all_results,
   filter (fun r => Result.eligible r = false) all_results,
   filter (fun r => Result.success r = false
                    ∧ Result.already_applied r = false
                    ∧ Result.eligible r = true) all_results).

(** [main] of [apply_all_sales.py].  The Python function prints its
    results; the model returns what it prints from: [None] when the login
    failed, else [all_results] and [processed_titles]. *)
Definition main : M (option (list Result.dict * gset string)) :=
  with_bot
    (logged_in <- login;;
     if negb logged_in then ret None
     else
       _ <- navigate_to_lotteries "sale";;
       total_pages <- _get_total_pages;;
       r <- process_pages (range 1 (total_pages + 1)) [] ∅;;
       sleep 5000;;
       ret (Some r)).

End Bot.

(** ** A small site

    An executable browser on which the bot can be run: a listing with pages
    of cards, a sign-in form and one detail view per card.  It serves as the
    concrete input of the examples below. *)

Module Site.

Record card : Type := CardOf {
  photo : option string;       (* [src] of the card's image *)
  name : option string;        (* text of the title element *)
  applied : bool;              (* the grey [Applied] button is shown *)
  has_view : bool;             (* the card has a [View Details] button *)
  body : string                (* text of the detail view *)
}.

Inductive view : Type := Home | SignIn | Listing | Detail (i : nat).

Record world : Type := World {
  pages : list (list card);
  at_view : view;
  page_no : nat;
  pagination : option string;  (* text of the pagination element *)
  offline : bool               (* navigation times out *)
}.

Inductive element : Type :=
| CardEl (i : nat)
| Img (i : nat)
| TitleEl (i : nat)
| AppliedBtn (i : nat)
| ViewBtn (i : nat)
| Pagination
| PageLink (n : nat)
| Tab
| LoginLink
| EmailInput
| PasswordInput
| SubmitBtn
| ApplyNow
| DetailApplied.

Definition current_cards (w : world) : list card :=
  default [] (pages w !! (page_no w - 1)%nat).

Definition card_at (w : world) (i : nat) : option card :=
  current_cards w !! i.

Definition set_view (v : view) (w : world) : world :=
  World (pages w) v (page_no w) (pagination w) (offline w).

Definition set_page (n : nat) (w : world) : world :=
  World (pages w) (at_view w) n (pagination w) (offline w).

Definition mark_applied (c : card) : card :=
  CardOf (photo c) (name c) true (has_view c) (body c).

Definition apply_to (i : nat) (w : world) : world :=
  World (alter (alter mark_applied i) (page_no w - 1)%nat (pages w))
    (at_view w) (page_no w) (pagination w) (offline w).

Definition url_of (w : world) : string :=
  match at_view w with
  | Home => BASE_URL
  | SignIn => "https://a806-housingconnect.nyc.gov/id4/account/login"
  | Listing => LOTTERIES_URL
  | Detail i => BASE_URL +:+ "/details"
  end.

Definition when {A} (cond : bool) (x : A) : option A :=
  if cond then Some x else None.

Definition on_detail (w : world) (p : card -> bool) : bool :=
  match at_view w with
  | Detail i => from_option p false (card_at w i)
  | _ => false
  end.

Definition on_listing (w : world) : bool :=
  match at_view w with Listing => true | _ => false end.

Definition on_sign_in (w : world) : bool :=
  match at_view w with SignIn => true | _ => false end.

Definition on_home (w : world) : bool :=
  match at_view w with Home => true | _ => false end.

Definition query (selector : string) (w : world) : option element :=
  if String.eqb selector (tab_selector "Sales")
     || String.eqb selector (tab_selector "Rentals")
  then when (on_listing w) Tab
  else if String.eqb selector ".small-screen"
  then when (on_listing w && bool_decide (is_Some (pagination w))) Pagination
  else if String.eqb selector "app-lottery-grid-card img.card-image"
  then when (on_listing w
             && from_option (fun c => bool_decide (is_Some (photo c))) false
                  (card_at w 0)) (Img 0)
  else if String.eqb selector login_link_selector
  then when (on_home w) LoginLink
  else if String.eqb selector (attr_is "input" "type" "password")
  then when (on_sign_in w) PasswordInput
  else if String.eqb selector login_submit_selector
  then when (on_sign_in w) SubmitBtn
  else if String.eqb selector applied_button_selector
          || String.eqb selector (has_text "button" "Applied")
  then when (on_detail w applied) DetailApplied
  else if String.eqb selector (has_text "a.btn.btn-primary" "Apply Now")
  then when (on_detail w (fun c => negb (applied c))) ApplyNow
  else None.

Definition page_link (selector : string) (w : world) : option element :=
  let fix go (n : nat) :=
    match n with
    | O => None
    | S n' =>
        if String.eqb selector
             (".ngx-pagination li a >> text=" +:+ Py.quoted (pretty (Z.of_nat n)))
        then Some (PageLink n) else go n'
    end in
  when (on_listing w) tt ≫= fun _ => go (length (pages w)).

Definition wait_for (selector : string) (w : world) : Py.result (option element) :=
  if String.eqb selector "app-lottery-grid-card"
  then if on_listing w then Py.Ok (Some (CardEl 0)) else Py.Raise Py.PlaywrightTimeout
  else if String.eqb selector email_input_selector
  then if on_sign_in w then Py.Ok (Some EmailInput) else Py.Raise Py.PlaywrightTimeout
  else if String.eqb selector detail_ready_selector
  then if on_detail w (fun _ => true) then Py.Ok (Some ApplyNow)
       else Py.Raise Py.PlaywrightTimeout
  else Py.Raise Py.PlaywrightTimeout.

Definition card_query (i : nat) (selector : string) (w : world)
    : option element :=
  c ← card_at w i;
  if String.eqb selector "img.card-image"
  then when (bool_decide (is_Some (photo c))) (Img i)
  else if String.eqb selector ".title.title-h3"
  then when (bool_decide (is_Some (name c))) (TitleEl i)
  else if String.eqb selector "button.btn-grey-90"
  then when (applied c) (AppliedBtn i)
  else if String.eqb selector (has_text "button" "View Details")
  then when (has_view c) (ViewBtn i)
  else None.

Definition text_of (e : element) (w : world) : option string :=
  match e with
  | TitleEl i => card_at w i ≫= name
  | AppliedBtn _ | DetailApplied => Some "Applied"
  | Pagination => pagination w
  | PageLink n => Some (pretty (Z.of_nat n))
  | _ => Some EmptyString
  end.

Definition click (e : element) (w : world) : world :=
  match e with
  | Tab => set_page 1 w
  | PageLink n => set_page n w
  | LoginLink => set_view SignIn w
  | SubmitBtn => set_view Home w
  | ViewBtn i => set_view (Detail i) w
  | ApplyNow =>
      match at_view w with
      | Detail i => apply_to i w
      | _ => w
      end
  | _ => w
  end.

Definition answer (A : Type) (c : call element A) (w : world)
    : Py.result A * world :=
  match c in call _ T return Py.result T * world with
  | Start => (Py.Ok tt, w)
  | Close => (Py.Ok tt, w)
  | Goto url =>
      if offline w then (Py.Raise Py.PlaywrightTimeout, w)
      else if String.eqb url LOTTERIES_URL
      then (Py.Ok tt, set_page 1 (set_view Listing w))
      else (Py.Ok tt, set_view Home w)
  | Url => (Py.Ok (url_of w), w)
  | Reload => (Py.Ok tt, w)
  | WaitForSelector selector _ => (wait_for selector w, w)
  | QuerySelector selector =>
      (Py.Ok (match query selector w with
              | Some e => Some e
              | None => page_link selector w
              end), w)
  | QuerySelectorAll selector =>
      if String.eqb selector "app-lottery-grid-card" && on_listing w
      then (Py.Ok (CardEl <$> seq 0 (length (current_cards w))), w)
      else (Py.Ok [], w)
  | TextContent selector =>
      (Py.Ok (match at_view w with
              | Detail i => body <$> card_at w i
              | _ => Some EmptyString
              end), w)
  | ElQuerySelector e selector =>
      (Py.Ok (match e with
              | CardEl i => card_query i selector w
              | _ => None
              end), w)
  | ElTextContent e => (Py.Ok (text_of e w), w)
  | ElGetAttribute e attr =>
      (Py.Ok (match e with
              | Img i => if String.eqb attr "src" then card_at w i ≫= photo else None
              | _ => None
              end), w)
  | ElClick e => (Py.Ok tt, click e w)
  | ElHover _ => (Py.Ok tt, w)
  | ElFill _ _ => (Py.Ok tt, w)
  | ElPress _ _ => (Py.Ok tt, w)
  | ElEvaluate _ _ => (Py.Ok "BUTTON", w)
  end.

Definition site : browser world element :=
  Browser answer (fun _ _ w => w).

Definition start (w : world) : state world element := State w [].

(** A card that can be applied to. *)
Definition listing (id title : string) (text : string) : card :=
  CardOf (Some ("https://a806-housingconnectapi.nyc.gov/MailTemplates/photos/"
                +:+ id +:+ ".png"))
    (Some title) false true text.

Definition applied_listing (id title : string) : card :=
  CardOf (Some ("https://a806-housingconnectapi.nyc.gov/MailTemplates/photos/"
                +:+ id +:+ ".png"))
    (Some title) true true EmptyString.

Definition income_text : string := "Eligible Income: $32,195 - $226,800".

(** Two pages: three cards, one of them applied to; then two new cards. *)
Definition two_pages : world :=
  World
    [[listing "101" " Alder Court " income_text;
      applied_listing "102" "Birch Row";
      listing "103" "Cedar Point" income_text];
     [listing "104" "Dogwood Hall" income_text;
      listing "105" "Elm Yard" "No income limit"]]
    Home 1 (Some "1 / 2") false.

Definition me : HousingConnectBot := Bot (Some "me@example.org") (Some "secret") 60000.

End Site.


(** ** The other entry points of [housing_connect_bot.py] *)

Section EntryPoints.
Context {world element : Type}.
Variable b : browser world element.
Variable self : HousingConnectBot.

Local Abbreviation M := (@M world element).
Local Abbreviation do := (do b).
Local Abbreviation sleep := (sleep b).

(** *** [apply_to_all_lotteries] *)

(** "Navigate back to list page before each card" *)
Definition back_on_page (lottery_type : string) (page_num : Z) : M unit :=
  u <- do Url;;
  if negb (Py.contains "search-lotteries" u) then
    do (Goto LOTTERIES_URL);;
    sleep 2000;;
    _ <- do (WaitForSelector "app-lottery-grid-card" 15000);;
    let tab_text :=
      if String.eqb lottery_type "rental" then "Rentals" else "Sales" in
    tab <- do (QuerySelector (tab_selector tab_text));;
    match tab with
    | Some tab => do (ElClick tab);; sleep 1000
    | None => ret tt
    end;;
    if 1 <? page_num then _ <- _go_to_page b page_num;; ret tt else ret tt
  else ret tt.

(** [for i in range(num_cards)] *)
Fixpoint apply_cards (lottery_type : string) (page_num : Z)
    (indices : list Z) (all_results : list Result.dict)
    : M (list Result.dict) :=
  match indices with
  | [] => ret all_results
  | i :: indices' =>
      back_on_page lottery_type page_num;;
      result <- apply_to_lottery_by_click b self i lottery_type;;
      sleep 1000;;
      apply_cards lottery_type page_num indices' (all_results ++ [result])
  end.

(** [for page_num in range(1, total_pages + 1)] *)
Fixpoint apply_pages (lottery_type : string) (pages : list Z)
    (all_results : list Result.dict) : M (list Result.dict) :=
  match pages with
  | [] => ret all_results
  | page_num :: pages' =>
      (if 1 <? page_num then _ <- _go_to_page b page_num;; ret tt else ret tt);;
      cards <- do (QuerySelectorAll "app-lottery-grid-card");;
      let num_cards := Z.of_nat (length cards) in
      all_results <-
        apply_cards lottery_type page_num (range 0 num_cards) all_results;;
      apply_pages lottery_type pages' all_results
  end.

(** The four numbers of the summary:
    [sum(1 for r in all_results if ...)]. *)
Definition tally (all_results : list Result.dict) : nat * nat * nat * nat :=
  (length (filter (fun r => Result.success r = true) all_results),
   length (filter (fun r => Result.already_applied r = true) all_results),
   length (filter (fun r => Result.eligible r = false) all_results),
   length (filter (fun r => Result.success r = false
                            /\ Result.already_applied r = false
                            /\ Result.eligible r = true) all_results)).

Definition apply_to_all_lotteries (lottery_type : string)
    : M (list Result.dict) :=
  _ <- navigate_to_lotteries b lottery_type;;
  total_pages <- _get_total_pages b;;
  apply_pages lottery_type (range 1 (total_pages + 1)) [].

(** *** [get_all_lottery_ids] *)
Definition get_all_lottery_ids : M (list LotteryInfo * list LotteryInfo) :=
  with_bot b
    (rental_lotteries <- get_lottery_ids b "rental";;
     sale_lotteries <- get_lottery_ids b "sale";;
     ret (rental_lotteries, sale_lotteries)).

(** *** [check_and_apply] *)

(** The dictionary [check_and_apply] returns when the login fails. *)
Record LoginFailed : Type := LoginFailure {
  failed_success : bool;
  failed_message : string;
  failed_lottery_id : string
}.

(** [bot.apply_to_lottery(lottery_id)]: the class has no method of that
    name, the attribute lookup raises. *)
Definition apply_to_lottery (lottery_id : string) : M LoginFailed :=
  raise Py.AttributeError.

Definition check_and_apply (lottery_id : string) : M LoginFailed :=
  with_bot b
    (logged_in <- login b self;;
     if negb logged_in
     then ret (LoginFailure false "Login failed" lottery_id)
     else apply_to_lottery lottery_id).

End EntryPoints.

(** ** Notions used in the further statements *)

Section FurtherNotions.
Context {world element : Type}.
Implicit Types st : state world element.
Implicit Types evs : list (event element).

(** The time slept in a stretch of the trace, in milliseconds, each sleep
    counted at its upper bound. *)
Fixpoint slept evs : Z :=
  match evs with
  | [] => 0
  | Slept lo hi :: evs' => hi + slept evs'
  | Called _ :: evs' => slept evs'
  end.

(** [m] adds to the trace, on every path, and what it adds sleeps at most
    [n] milliseconds. *)
Definition sleeps_at_most (n : Z) {A} (m : M A) : Prop :=
  forall st, exists evs,
    trace (snd (m st)) = trace st ++ evs /\ slept evs <= n.

(** A record as the card extractor builds it for the category
    [lottery_type]: the id is a run of digits, the address is derived from
    it, the income bounds are not set. *)
Definition well_formed (lottery_type : string) (r : LotteryInfo) : Prop :=
  Info.id r <> EmptyString
  /\ Py.all_chars Py.is_digit (Info.id r) = true
  /\ Info.url r = Some (BASE_URL +:+ "/lottery-details/" +:+ Info.id r)
  /\ Info.lottery_type r = lottery_type
  /\ Info.min_income r = None /\ Info.max_income r = None.


(** The selectors the workflow looks the [Apply Now] link up with. *)
Definition apply_now_selectors : list string :=
  [has_text "a.btn.btn-primary" "Apply Now";
   has_text "a.btn-primary" "Apply Now";
   has_text "a" "Apply Now"].

(** [apply_btn] was found by one of the [Apply Now] selectors. *)
Definition found_apply_now (b : browser world element) (apply_btn : element)
    : Prop :=
  exists sel w w',
    sel ∈ apply_now_selectors
    /\ answer b (QuerySelector sel) w = (Py.Ok (Some apply_btn), w').

(** The trace of [st] has a click on an element found by one of the
    [Apply Now] selectors. *)
Definition clicked_apply_now (b : browser world element) st : Prop :=
  exists apply_btn,
    found_apply_now b apply_btn /\ Called (ElClick apply_btn) ∈ trace st.


End FurtherNotions.

(** ** Notions used in the statements *)

Section Notions.
Context {world element : Type}.
Variable b : browser world element.
Variable self : HousingConnectBot.
Implicit Types st : state world element.
Implicit Types r result : Result.dict.
Implicit Types l kept records : list LotteryInfo.

(** [ensures m st Q]: when [m] returns from [st], it returns a value and a
    state that satisfy [Q]. *)
Definition ensures {A} (m : M A) st (Q : A -> state world element -> Prop)
    : Prop :=
  match m st with
  | (Py.Ok a, st') => Q a st'
  | (Py.Raise _, _) => True
  end.


(** The dictionary as the workflow carries it until a reason is set. *)
Definition undecided r : Prop :=
  Result.success r = false /\ Result.already_applied r = false
  /\ Result.eligible r = true.

(** The messages of the outcomes that carry none of the three reasons. *)
Inductive failure_message : string -> Prop :=
| OutOfRange (i : Z) : failure_message (out_of_range_message i)
| NoViewDetails : failure_message "Could not find View Details button"
| NoApplyNow : failure_message "Could not find Apply Now button"
| RedirectedToLogin : failure_message "Redirected to login - not logged in".

(** The four kinds of outcome. *)
Inductive verdict : Result.dict -> Prop :=
| Applied (title msg : string) :
    msg = "Successfully applied!" \/ msg = "Application submitted (unverified)" ->
    verdict (Result.Build true msg false true title)
| AlreadyApplied (title : string) :
    verdict (Result.Build false "Already applied" true true title)
| NotEligible (title : string) (lo hi : Z) :
    ~ (lo <= annual_income self <= hi) ->
    verdict (Result.Build false (not_eligible_message self lo hi) false false
               title)
| Failed (title msg : string) :
    failure_message msg ->
    verdict (Result.Build false msg false true title).

(** The words of the specification: go through the records in order; a
    record whose id is not among the ids kept so far is appended to the
    output. *)
Fixpoint first_seen_after kept records : list LotteryInfo :=
  match records with
  | [] => kept
  | r :: records' =>
      if decide (Info.id r ∈ Info.id <$> kept)
      then first_seen_after kept records'
      else first_seen_after (kept ++ [r]) records'
  end.

Definition first_seen records : list LotteryInfo :=
  first_seen_after [] records.

(** Visit the pages and extract the cards of each. *)
Fixpoint scan_pages (lottery_type : string) (pages : list Z)
    : M (list (list LotteryInfo)) :=
  match pages with
  | [] => ret []
  | page_num :: pages' =>
      (if 1 <? page_num then _ <- _go_to_page b page_num;; ret tt else ret tt);;
      page <- _get_lotteries_from_current_page b lottery_type;;
      rest <- scan_pages lottery_type pages';;
      ret (page :: rest)
  end.

(** [collect(category)] of the specification. *)
Definition collect (lottery_type : string) : M (list LotteryInfo) :=
  _ <- navigate_to_lotteries b lottery_type;;
  total <- _get_total_pages b;;
  pages <- scan_pages lottery_type (range 1 (total + 1));;
  ret (first_seen (concat pages)).


End Notions.

(** ** Inputs of the examples *)

Definition phrase : string := "Eligible Income: $32,195 - $226,800".


(** A page whose first card has no image and whose second card has no
    title element. *)
Definition odd_cards : Site.world :=
  Site.World
    [[Site.CardOf None (Some "No picture") false true EmptyString;
      Site.CardOf
        (Some "https://a806-housingconnectapi.nyc.gov/MailTemplates/photos/34926806.png")
        None false true EmptyString;
      Site.listing "101" " Alder Court " Site.income_text]]
    Site.Listing 1 None false.

Definition untitled_record : LotteryInfo :=
  Info.Build "34926806" "Unknown" "rental" None None None None None false
    (Some "https://housingconnect.nyc.gov/PublicWeb/lottery-details/34926806").

Definition no_network : Site.world :=
  Site.World [[]] Site.Home 1 None true.




Definition applied_outcome : Result.dict :=
  Result.Build true "Successfully applied!" false true "Alder Court".

(** Two pages that overlap: the second page shows the last card of the
    first page again. *)
Definition overlapping_pages : Site.world :=
  Site.World
    [[Site.listing "101" "Alder Court" Site.income_text;
      Site.applied_listing "102" "Birch Row";
      Site.listing "103" "Cedar Point" Site.income_text];
     [Site.listing "103" "Cedar Point" Site.income_text;
      Site.listing "104" "Dogwood Hall" Site.income_text;
      Site.listing "105" "Elm Yard" "No income limit"]]
    Site.Home 1 (Some "1 / 2") false.




(** * Properties *)

(** ** Strings and regular expressions *)

Section StringFacts.

Lemma append_nil (s : string) : EmptyString +:+ s = s.
Proof. reflexivity. Qed.

Lemma append_cons (a : ascii) (s1 s2 : string) :
  String a s1 +:+ s2 = String a (s1 +:+ s2).
Proof. reflexivity. Qed.

Lemma append_assoc (s1 s2 s3 : string) :
  (s1 +:+ s2) +:+ s3 = s1 +:+ (s2 +:+ s3).
Proof.
  induction s1 as [|a s1 IH]; [reflexivity |].
  rewrite !append_cons. now f_equal.
Qed.

Lemma length_append (s1 s2 : string) :
  String.length (s1 +:+ s2) = (String.length s1 + String.length s2)%nat.
Proof.
  induction s1 as [|a s1 IH]; [reflexivity |].
  rewrite append_cons. simpl. now f_equal.
Qed.

Lemma take_length (s1 s2 : string) :
  Py.take (String.length s1) (s1 +:+ s2) = s1.
Proof.
  induction s1 as [|a s1 IH]; [now destruct s2 |].
  rewrite append_cons. simpl. now f_equal.
Qed.

Lemma take_append (s1 s2 : string) :
  Py.take (String.length (s1 +:+ s2) - String.length s2) (s1 +:+ s2) = s1.
Proof.
  rewrite length_append.
  replace (String.length s1 + String.length s2 - String.length s2)%nat
    with (String.length s1) by lia.
  apply take_length.
Qed.

Lemma lower_append (s1 s2 : string) :
  Py.lower (s1 +:+ s2) = Py.lower s1 +:+ Py.lower s2.
Proof.
  induction s1 as [|a s1 IH]; [reflexivity |].
  rewrite !append_cons. simpl. rewrite append_cons. now f_equal.
Qed.

Lemma length_lower (s : string) : String.length (Py.lower s) = String.length s.
Proof. induction s as [|a s IH]; simpl; [reflexivity | now f_equal]. Qed.

(** Only the first [length p] characters decide [startswith p]. *)
Lemma startswith_append (p s t : string) :
  (String.length p <= String.length s)%nat ->
  Py.startswith p (s +:+ t) = Py.startswith p s.
Proof.
  revert s; induction p as [|a p IH]; intros s Hlen; [reflexivity |].
  destruct s as [|c s]; [simpl in Hlen; lia |].
  rewrite append_cons. simpl in *.
  destruct (Ascii.eqb a c); [apply IH; lia | reflexivity].
Qed.

Lemma contains_cons_false (needle : string) (a : ascii) (s : string) :
  Py.contains needle (String a s) = false ->
  Py.startswith needle (String a s) = false /\ Py.contains needle s = false.
Proof. simpl. intros H. now apply orb_false_iff in H. Qed.

Lemma contains_false_startswith (needle s : string) :
  Py.contains needle s = false -> Py.startswith needle s = false.
Proof. destruct s; simpl; intros H; now apply orb_false_iff in H. Qed.

End StringFacts.

Section RegexFacts.
Variable ic : bool.

Lemma search_skip (r : Re.regex) (a : ascii) (s : string) :
  Re.match_here ic r (String a s) = None ->
  Re.search ic r (String a s) = Re.search ic r s.
Proof. intros H. simpl. now rewrite H. Qed.

Lemma search_here (r : Re.regex) (s : string) (g : Re.groups) :
  Re.match_here ic r s = Some g -> Re.search ic r s = Some g.
Proof. intros H. destruct s; simpl; now rewrite H. Qed.

(** A greedy star takes a whole run when the rest of the pattern accepts
    what follows the run. *)
Lemma star_run (p : ascii -> bool) (run rest : string)
    (k : string -> option Re.groups) (g : Re.groups) :
  Py.all_chars p run = true -> Py.head_in p rest = false ->
  k rest = Some g ->
  Re.star p (run +:+ rest) k = Some g.
Proof.
  intros Hrun Hrest Hk. induction run as [|a run IH].
  - rewrite append_nil. destruct rest as [|c rest]; [exact Hk |].
    simpl in *. now rewrite Hrest.
  - simpl in Hrun. apply andb_true_iff in Hrun as [Ha Hrun].
    rewrite append_cons. simpl. rewrite Ha, (IH Hrun). reflexivity.
Qed.

Lemma matches_star_run (p : ascii -> bool) (run rest : string)
    (g x : Re.groups) (k : string -> Re.groups -> option Re.groups) :
  Py.all_chars p run = true -> Py.head_in p rest = false ->
  k rest g = Some x ->
  Re.matches ic (Re.Star p) (run +:+ rest) g k = Some x.
Proof. intros. simpl. now apply star_run. Qed.

(** A group [(p+)] takes a non-empty run and records it. *)
Lemma matches_group_plus (n : nat) (p : ascii -> bool) (run rest : string)
    (g x : Re.groups) (k : string -> Re.groups -> option Re.groups) :
  run <> EmptyString ->
  Py.all_chars p run = true -> Py.head_in p rest = false ->
  k rest ((n, run) :: g) = Some x ->
  Re.matches ic (Re.Group n (Re.Plus p)) (run +:+ rest) g k = Some x.
Proof.
  intros Hne Hrun Hrest Hk.
  destruct run as [|a run]; [congruence |].
  simpl in Hrun. apply andb_true_iff in Hrun as [Ha Hrun].
  rewrite append_cons. cbn [Re.matches Re.Plus]. rewrite Ha.
  apply star_run; [assumption .. |].
  rewrite <- append_cons. now rewrite take_append.
Qed.

Lemma matches_cat (r1 r2 : Re.regex) (s : string) (g : Re.groups)
    (k : string -> Re.groups -> option Re.groups) :
  Re.matches ic (Re.Cat r1 r2) s g k
  = Re.matches ic r1 s g (fun s' g' => Re.matches ic r2 s' g' k).
Proof. reflexivity. Qed.


End RegexFacts.

Section RegexSteps.
Variable ic : bool.

Lemma lit_matches_refl (c : ascii) : Re.lit_matches ic c c = true.
Proof. unfold Re.lit_matches. destruct ic; apply Ascii.eqb_refl. Qed.

Lemma matches_lit (c : ascii) (s : string) (g : Re.groups)
    (k : string -> Re.groups -> option Re.groups) :
  Re.matches ic (Re.Lit c) (String c s) g k = k s g.
Proof. simpl. now rewrite lit_matches_refl. Qed.

Lemma matches_word (w s : string) (g : Re.groups)
    (k : string -> Re.groups -> option Re.groups) :
  Re.matches ic (Re.Word w) (w +:+ s) g k = k s g.
Proof.
  induction w as [|c w IH]; [reflexivity |].
  rewrite append_cons. simpl. now rewrite lit_matches_refl.
Qed.

Lemma matches_opt_lit (c : ascii) (s : string) (g x : Re.groups)
    (k : string -> Re.groups -> option Re.groups) :
  k s g = Some x ->
  Re.matches ic (Re.Opt (Re.Lit c)) (String c s) g k = Some x.
Proof. intros H. simpl. now rewrite lit_matches_refl, H. Qed.

End RegexSteps.

(** ** The income range *)

Section IncomeRange.

(** Where the pattern matches, the text reads [eligible income], in any
    case. *)
Lemma word_startswith (w s : string) (g : Re.groups)
    (k : string -> Re.groups -> option Re.groups) :
  Py.startswith (Py.lower w) (Py.lower s) = false ->
  Re.matches true (Re.Word w) s g k = None.
Proof.
  revert s; induction w as [|c w IH]; intros s H; [discriminate |].
  destruct s as [|a s]; [reflexivity |].
  simpl in *. unfold Re.lit_matches.
  rewrite Ascii.eqb_sym.
  destruct (Ascii.eqb (Py.lower_char c) (Py.lower_char a)); [auto | reflexivity].
Qed.

Lemma income_here_none (s : string) :
  Py.startswith "eligible income" (Py.lower s) = false ->
  Re.match_here true Patterns.income_range s = None.
Proof.
  intros H. unfold Re.match_here, Patterns.income_range.
  rewrite matches_cat. now apply word_startswith.
Qed.

Lemma income_search_none (text : string) :
  Py.contains "eligible income" (Py.lower text) = false ->
  Re.search true Patterns.income_range text = None.
Proof.
  induction text as [|a text IH]; intros H.
  - reflexivity.
  - change (Py.lower (String a text))
      with (String (Py.lower_char a) (Py.lower text)) in H.
    apply contains_cons_false in H as [Hh Ht].
    rewrite search_skip; [auto |].
    now apply income_here_none.
Qed.

Lemma income_search_skip (pre tail : string) :
  Py.contains "eligible income" (Py.lower (pre +:+ "Eligible Incom")) = false ->
  Re.search true Patterns.income_range (pre +:+ "Eligible Incom" +:+ tail)
  = Re.search true Patterns.income_range ("Eligible Incom" +:+ tail).
Proof.
  induction pre as [|a pre IH]; intros H; [reflexivity |].
  rewrite append_cons in *.
  change (Py.lower (String a (pre +:+ "Eligible Incom")))
    with (String (Py.lower_char a) (Py.lower (pre +:+ "Eligible Incom"))) in H.
  apply contains_cons_false in H as [Hh Ht].
  rewrite search_skip; [auto |].
  apply income_here_none.
  change (String a (pre +:+ "Eligible Incom" +:+ tail))
    with (String a pre +:+ "Eligible Incom" +:+ tail).
  rewrite <- append_assoc, lower_append, startswith_append.
  - exact Hh.
  - rewrite length_lower, length_append. simpl. lia.
Qed.

Lemma income_phrase_here (post : string) :
  Py.head_in Re.digit_or_comma post = false ->
  Re.match_here true Patterns.income_range (phrase +:+ post)
  = Some [(2%nat, "226,800"); (1%nat, "32,195")].
Proof.
  intros Hpost. unfold Re.match_here, Patterns.income_range.
  rewrite matches_cat.
  rewrite (matches_word true "Eligible Income" (": $32,195 - $226,800" +:+ post)).
  rewrite matches_cat. apply matches_opt_lit.
  rewrite matches_cat.
  apply (matches_star_run true Py.is_space " " ("$32,195 - $226,800" +:+ post));
    [reflexivity .. |].
  rewrite matches_cat. apply matches_opt_lit.
  rewrite matches_cat.
  apply (matches_group_plus true 1 Re.digit_or_comma "32,195"
           (" - $226,800" +:+ post)); [discriminate | reflexivity .. |].
  rewrite matches_cat.
  apply (matches_star_run true Py.is_space " " ("- $226,800" +:+ post));
    [reflexivity .. |].
  rewrite matches_cat.
  rewrite (matches_lit true "-" (" $226,800" +:+ post)).
  rewrite matches_cat.
  apply (matches_star_run true Py.is_space " " ("$226,800" +:+ post));
    [reflexivity .. |].
  rewrite matches_cat. apply matches_opt_lit.
  apply (matches_group_plus true 2 Re.digit_or_comma "226,800" post);
    [discriminate | reflexivity | exact Hpost | reflexivity].
Qed.

(** C2, as amended.  The parser returns (32195, 226800) on a text where the
    phrase [Eligible Income: $32,195 - $226,800] is the first place that
    reads "eligible income" (in any case) and is not followed by a digit or
    a comma, in particular on the phrase alone; it returns (None, None) on a
    text that nowhere reads "eligible income". *)
Theorem parse_income_range_phrase (pre post text : string) :
  Py.contains "eligible income" (Py.lower (pre +:+ "Eligible Incom")) = false ->
  Py.head_in Re.digit_or_comma post = false ->
  Py.contains "eligible income" (Py.lower text) = false ->
  _parse_income_range (pre +:+ phrase +:+ post)
    = Py.Ok (Some 32195, Some 226800)
  /\ _parse_income_range phrase = Py.Ok (Some 32195, Some 226800)
  /\ _parse_income_range text = Py.Ok (None, None).
Proof.
  intros Hpre Hpost Htext.
  assert (Hgen : forall pre', 
    Py.contains "eligible income" (Py.lower (pre' +:+ "Eligible Incom")) = false ->
    forall post', Py.head_in Re.digit_or_comma post' = false ->
    _parse_income_range (pre' +:+ phrase +:+ post')
      = Py.Ok (Some 32195, Some 226800)).
  { intros pre' Hp post' Hq. unfold _parse_income_range.
    change (pre' +:+ phrase +:+ post')
      with (pre' +:+ "Eligible Incom" +:+ ("e: $32,195 - $226,800" +:+ post')).
    rewrite income_search_skip by exact Hp.
    change ("Eligible Incom" +:+ "e: $32,195 - $226,800" +:+ post')
      with (phrase +:+ post').
    rewrite (search_here _ _ _ _ (income_phrase_here post' Hq)).
    reflexivity. }
  split; [now apply Hgen |].
  split; [exact (Hgen EmptyString eq_refl EmptyString eq_refl) |].
  unfold _parse_income_range. now rewrite income_search_none.
Qed.

Lemma parse_income_range_phrase_witness :
  _parse_income_range ("Rent from $900. " +:+ phrase +:+ " per year")
    = Py.Ok (Some 32195, Some 226800)
  /\ _parse_income_range phrase = Py.Ok (Some 32195, Some 226800)
  /\ _parse_income_range "No income limit" = Py.Ok (None, None).
Proof.
  apply (parse_income_range_phrase "Rent from $900. " " per year"
           "No income limit"); reflexivity.
Defined.

(** A text that contains the phrase and yet yields another pair: the last
    group is greedy. *)
Lemma parse_income_range_greedy :
  Py.contains phrase (phrase +:+ "0") = true
  /\ _parse_income_range (phrase +:+ "0") = Py.Ok (Some 32195, Some 2268000).
Proof. split; reflexivity. Qed.

End IncomeRange.

(** ** Numbers *)

Section IntFacts.









End IntFacts.

(** ** Pagination *)

Section Pagination.







End Pagination.

(** ** The monad *)

Section MonadFacts.
Context {world element : Type}.
Implicit Types st : state world element.

Lemma ensures_ret {A} (a : A) st (Q : A -> state world element -> Prop) :
  Q a st -> ensures (ret a) st Q.
Proof. exact id. Qed.

Lemma ensures_bind {A B} (m : M A) (f : A -> M B) st
    (Q : B -> state world element -> Prop) :
  ensures m st (fun a st' => ensures (f a) st' Q) -> ensures (bind m f) st Q.
Proof. unfold ensures, bind. destruct (m st) as [[a|e] st']; auto. Qed.

Lemma ensures_weaken {A} (m : M A) st (P Q : A -> state world element -> Prop) :
  (forall a st', P a st' -> Q a st') -> ensures m st P -> ensures m st Q.
Proof. unfold ensures. destruct (m st) as [[a|e] st']; auto. Qed.

Lemma ensures_any {A} (m : M A) st : ensures m st (fun _ _ => True).
Proof. unfold ensures. now destruct (m st) as [[a|e] st']. Qed.

Lemma ensures_try_except {A} (m : M A) (h : Py.exn -> M A) st
    (Q : A -> state world element -> Prop) :
  ensures m st Q -> (forall e st', ensures (h e) st' Q) ->
  ensures (try_except m h) st Q.
Proof.
  intros Hm Hh. unfold ensures in Hm |- *. unfold try_except.
  destruct (m st) as [[a|e] st']; [exact Hm | apply Hh].
Qed.

Lemma ensures_elim {A} (m : M A) st (Q : A -> state world element -> Prop)
    a st' :
  ensures m st Q -> m st = (Py.Ok a, st') -> Q a st'.
Proof. unfold ensures. intros H E. now rewrite E in H. Qed.

Lemma bind_assoc {A B C} (m : M A) (f : A -> M B) (g : B -> M C) st :
  bind (bind m f) g st = bind m (fun a => bind (f a) g) st.
Proof. unfold bind. now destruct (m st) as [[a|e] st']. Qed.

Lemma bind_congr {A B} (m : M A) (f g : A -> M B) st :
  (forall a st', f a st' = g a st') -> bind m f st = bind m g st.
Proof. intros H. unfold bind. destruct (m st) as [[a|e] st']; auto. Qed.

(** A handler that always returns makes the whole [try] return. *)
Lemma try_except_returns {A} (m : M A) (h : Py.exn -> M A) st :
  (forall e st', exists a st'', h e st' = (Py.Ok a, st'')) ->
  exists a st', try_except m h st = (Py.Ok a, st').
Proof.
  intros Hh. unfold try_except. destruct (m st) as [[a|e] st']; eauto.
Qed.

End MonadFacts.

(** ** [_get_total_pages] *)

Section TotalPages.
Context {world element : Type}.
Variable b : browser world element.


End TotalPages.

Section TotalPagesExamples.



End TotalPagesExamples.

(** ** The card extractor *)

Section CardExtractor.
Context {world element : Type}.
Variable b : browser world element.
Implicit Types st : state world element.

Lemma ensures_all {A} (m : M A) st (Q : A -> state world element -> Prop) :
  (forall a st', Q a st') -> ensures m st Q.
Proof. intros H. unfold ensures. destruct (m st) as [[a|e] st']; auto. Qed.

Lemma parse_lottery_card_returns (card : element) (ty : string) st :
  exists r st', _parse_lottery_card b card ty st = (Py.Ok r, st').
Proof. apply try_except_returns. intros e st'. now eexists _, _. Qed.

(** Without an id there is no record. *)
Lemma parse_lottery_card_no_id (card : element) (ty : string) st :
  ensures (parse_id b card) st (fun i _ => i = None) ->
  ensures (_parse_lottery_card b card ty) st (fun r _ => r = None).
Proof.
  intros H. apply ensures_try_except; [| now intros e st'].
  unfold card_fields. apply ensures_bind. revert H. apply ensures_weaken. intros i st1 ->.
  do 5 (apply ensures_bind, ensures_all; intros ? ?).
  reflexivity.
Qed.

(** The id step finds nothing when the image is missing, has no [src], or
    has a [src] without the segment [/photos/<digits>.]. *)
Lemma parse_id_none (card : element) st :
  match answer b (ElQuerySelector card "img.card-image") (world_of st) with
  | (Py.Ok (Some img), w1) =>
      match answer b (ElGetAttribute img "src") w1 with
      | (Py.Ok (Some src), _) =>
          Re.search false Patterns.photo_id src = None
      | _ => True
      end
  | _ => True
  end ->
  ensures (parse_id b card) st (fun i _ => i = None).
Proof.
  unfold ensures, parse_id, bind, do, ret.
  destruct (answer b (ElQuerySelector card "img.card-image") (world_of st))
    as [[[img|]|e] w1]; cbn [world_of trace]; try easy.
  destruct (answer b (ElGetAttribute img "src") w1) as [[[src|]|e] w2];
    cbn [world_of trace]; try easy.
  intros ->. now destruct (truthy src).
Qed.

Lemma parse_cards_returns (ty : string) (cards : list element)
    (lotteries : list LotteryInfo) st :
  exists l st', parse_cards b ty cards lotteries st = (Py.Ok l, st').
Proof.
  revert lotteries st. induction cards as [|card cards IH]; intros lotteries st.
  - now eexists _, _.
  - destruct (parse_lottery_card_returns card ty st) as (r & st1 & Hr).
    cbn [parse_cards]. unfold bind. rewrite Hr.
    destruct r; apply IH.
Qed.

(** C5.  [_parse_lottery_card] never raises: whatever the browser answers,
    it returns a record or [None], and it returns [None] when the
    extraction of the fields raises.  It returns [None] for a card without an
    image, with an image without [src], or with a [src] that lacks the
    segment [/photos/<digits>.].  The scan of a page goes on after every
    card, whatever its parse gave, and returns a list whenever the browser
    hands over the cards of the page. *)
Theorem parse_lottery_card_never_raises (card : element) (ty : string) st :
  (exists r st',
     _parse_lottery_card b card ty st = (Py.Ok r, st')
     /\ (forall e st1, card_fields b card ty st = (Py.Raise e, st1) ->
         r = None /\ st' = st1)
     /\ match answer b (ElQuerySelector card "img.card-image") (world_of st) with
        | (Py.Ok (Some img), w1) =>
            match answer b (ElGetAttribute img "src") w1 with
            | (Py.Ok (Some src), _) =>
                Re.search false Patterns.photo_id src = None -> r = None
            | _ => r = None
            end
        | _ => r = None
        end
     /\ forall cards lotteries,
          parse_cards b ty (card :: cards) lotteries st
          = parse_cards b ty cards
              (lotteries ++ match r with Some i => [i] | None => [] end) st'
          /\ exists l st'',
               parse_cards b ty (card :: cards) lotteries st = (Py.Ok l, st''))
  /\ (forall cards w1,
        answer b (QuerySelectorAll "app-lottery-grid-card")
          (elapse b 1000 1000 (world_of st)) = (Py.Ok cards, w1) ->
        exists l st',
          _get_lotteries_from_current_page b ty st = (Py.Ok l, st')).
Proof.
  split.
  - destruct (parse_lottery_card_returns card ty st) as (r & st' & Hr).
    exists r, st'. split; [exact Hr |]. split; [| split].
    + intros e st1 He. unfold _parse_lottery_card, try_except in Hr.
      rewrite He in Hr. unfold ret in Hr. now injection Hr as <- <-.
    + pose proof (parse_lottery_card_no_id card ty st) as Hnone.
      pose proof (parse_id_none card st) as Hid.
      destruct (answer b (ElQuerySelector card "img.card-image") (world_of st))
        as [[[img|]|e] w1];
        [| exact (ensures_elim _ _ _ _ _ (Hnone (Hid I)) Hr) ..].
      destruct (answer b (ElGetAttribute img "src") w1) as [[[src|]|e] w2];
        [| exact (ensures_elim _ _ _ _ _ (Hnone (Hid I)) Hr) ..].
      intros Hs. exact (ensures_elim _ _ _ _ _ (Hnone (Hid Hs)) Hr).
    + intros cards lotteries. split.
      * cbn [parse_cards]. unfold bind. rewrite Hr.
        destruct r; [reflexivity | now rewrite app_nil_r].
      * apply parse_cards_returns.
  - intros cards w1 Hq.
    unfold _get_lotteries_from_current_page, bind, sleep, sleep_uniform, do.
    cbn [world_of trace]. rewrite Hq.
    destruct cards as [|c cards]; [now eexists _, _ |].
    apply parse_cards_returns.
Qed.

(** C10, as amended.  The title step of the card extractor gives the
    trimmed text of the title element when there is one and the fixed
    placeholder [Unknown], without an index, when there is none; and the
    title of a returned record is what the title step gave. *)
Theorem parse_lottery_card_title (card : element) (ty : string) st :
  match answer b (ElQuerySelector card ".title.title-h3") (world_of st) with
  | (Py.Ok None, w1) =>
      fst (parse_title b card st) = Py.Ok "Unknown"
  | (Py.Ok (Some title_el), w1) =>
      match answer b (ElTextContent title_el) w1 with
      | (Py.Ok (Some t), _) => fst (parse_title b card st) = Py.Ok (Py.strip t)
      | _ => True
      end
  | _ => True
  end
  /\ forall r st',
       _parse_lottery_card b card ty st = (Py.Ok (Some r), st') ->
       exists i st1 st2,
         parse_id b card st = (Py.Ok i, st1)
         /\ parse_title b card st1 = (Py.Ok (Info.title r), st2).
Proof.
  split.
  - unfold parse_title, bind, do, ret, stripped.
    destruct (answer b (ElQuerySelector card ".title.title-h3") (world_of st))
      as [[[el|]|e] w1]; cbn [world_of trace fst]; try easy.
    destruct (answer b (ElTextContent el) w1) as [[[t|]|e] w2];
      cbn [world_of trace fst]; easy.
  - intros r st'. unfold _parse_lottery_card, card_fields, try_except, bind.
    destruct (parse_id b card st) as [[i|e] st1] eqn:Hi; [| discriminate].
    destruct (parse_title b card st1) as [[title|e] st2] eqn:Ht;
      [| discriminate].
    destruct (parse_location b card st2) as [[loc|e] st3]; [| discriminate].
    destruct (parse_count b card ".pb-xs.title-h6" false Patterns.units st3)
      as [[units|e] st4]; [| discriminate].
    destruct (parse_count b card ".prefix.title-h4" true Patterns.days st4)
      as [[days|e] st5]; [| discriminate].
    destruct (parse_applied b card st5) as [[ap|e] st6]; [| discriminate].
    unfold ret, make_info. intros H.
    exists i, st1, st2. split; [reflexivity |].
    destruct i as [i|]; [| discriminate].
    destruct (truthy i); [| discriminate].
    injection H as <- _. exact Ht.
Qed.

End CardExtractor.

Section CardExtractorExamples.

Lemma parse_lottery_card_never_raises_witness :
  fst (_parse_lottery_card Site.site (Site.CardEl 0) "rental"
         (Site.start odd_cards)) = Py.Ok None
  /\ exists l,
       fst (_get_lotteries_from_current_page Site.site "rental"
              (Site.start odd_cards)) = Py.Ok l
       /\ length l = 2%nat.
Proof.
  destruct (parse_lottery_card_never_raises Site.site (Site.CardEl 0) "rental"
              (Site.start odd_cards)) as [(r & st' & Hr & _ & Hnone & _) Hpage].
  split.
  - rewrite Hr. cbn in Hnone. now rewrite Hnone.
  - destruct (Hpage _ _ eq_refl) as (l & st'' & Hl).
    exists l. rewrite Hl. split; [reflexivity |].
    vm_compute in Hl. now injection Hl as <- _.
Defined.

Lemma parse_lottery_card_title_witness :
  fst (parse_title Site.site (Site.CardEl 2) (Site.start odd_cards))
    = Py.Ok "Alder Court"
  /\ fst (parse_title Site.site (Site.CardEl 1) (Site.start odd_cards))
    = Py.Ok "Unknown".
Proof.
  split.
  - exact (proj1 (parse_lottery_card_title Site.site (Site.CardEl 2) "rental"
                    (Site.start odd_cards))).
  - exact (proj1 (parse_lottery_card_title Site.site (Site.CardEl 1) "rental"
                    (Site.start odd_cards))).
Defined.

(** The record of a card without a title element: its title is [Unknown],
    with no index, although the card is the second of its page. *)
Lemma parse_lottery_card_untitled :
  fst (_parse_lottery_card Site.site (Site.CardEl 1) "rental"
         (Site.start odd_cards)) = Py.Ok (Some untitled_record).
Proof. reflexivity. Qed.

End CardExtractorExamples.

(** ** [login] *)

Section Login.
Context {world element : Type}.
Variable b : browser world element.
Variable self : HousingConnectBot.
Implicit Types st : state world element.

(** Without a user name or without a password [login] fails at once: it
    returns [False] and calls nothing. *)
Lemma login_without_credentials st :
  credentials_missing self = true -> login b self st = (Py.Ok false, st).
Proof. intros H. unfold login. now rewrite H. Qed.

(** Once the first navigation has answered, [login] returns a boolean
    whatever happens next. *)
Lemma login_returns_after_goto st w :
  answer b (Goto BASE_URL) (world_of st) = (Py.Ok tt, w) ->
  exists r st', login b self st = (Py.Ok r, st').
Proof.
  intros H. unfold login.
  destruct (credentials_missing self); [now eexists _, _ |].
  unfold bind at 1, do at 1. rewrite H.
  unfold bind at 1, sleep, sleep_uniform.
  apply try_except_returns. intros e st'. now eexists _, _.
Qed.

(** An exception of the first navigation leaves [login]: the call
    [page.goto(BASE_URL)] stands before the [try]. *)
Lemma login_goto_raises st e w :
  credentials_missing self = false ->
  answer b (Goto BASE_URL) (world_of st) = (Py.Raise e, w) ->
  login b self st
  = (Py.Raise e, State w (trace st ++ [Called (Goto BASE_URL)])).
Proof.
  intros Hc H. unfold login. rewrite Hc.
  unfold bind at 1, do at 1. now rewrite H.
Qed.

(** [login] returns [True] only by its last test: the address read after
    the settle delay is under the base path and is not the sign-in page of
    the identity provider; that read is the last call of the run. *)
Lemma login_true_by_url st :
  ensures (login b self) st
    (fun r st' =>
       r = true ->
       exists w u,
         answer b Url w = (Py.Ok u, world_of st')
         /\ logged_in_url u = true).
Proof.
  unfold login.
  destruct (credentials_missing self); [now apply ensures_ret |].
  apply ensures_bind, ensures_all. intros _ sa.
  apply ensures_bind, ensures_all. intros _ sb.
  apply ensures_try_except; [| now intros e sc].
  apply ensures_bind, ensures_all. intros login_link st1.
  destruct login_link as [login_link|]; [| now apply ensures_ret].
  apply ensures_bind, ensures_all. intros _ sd.
  apply ensures_bind, ensures_all. intros _ se.
  apply ensures_bind, ensures_all. intros _ sf.
  apply ensures_bind, ensures_all. intros email_input st2.
  apply ensures_bind, ensures_all. intros password_input st3.
  destruct email_input as [email_input|]; [| now apply ensures_ret].
  destruct password_input as [password_input|]; [| now apply ensures_ret].
  do 6 (apply ensures_bind, ensures_all; intros ? ?).
  apply ensures_bind, ensures_all. intros _ sg.
  unfold ensures, login_succeeded, bind, do, ret.
  destruct (answer b Url (world_of sg)) as [[u|e] w'] eqn:Hurl; [| exact I].
  intros Hu. now exists (world_of sg), u.
Qed.

(** The last test of [login], after the settle delay: success if and only
    if the address is under the base path and is not the sign-in page of the
    identity provider. *)
Lemma login_succeeded_iff st (u : string) w :
  answer b Url (world_of st) = (Py.Ok u, w) ->
  login_succeeded b st
  = (Py.Ok (logged_in_url u), State w (trace st ++ [Called Url]))
  /\ (logged_in_url u = true <->
      Py.contains "housingconnect.nyc.gov/PublicWeb" u = true
      /\ Py.contains "id4/account/login" u = false).
Proof.
  intros H. split.
  - unfold login_succeeded, bind, do, ret. now rewrite H.
  - unfold logged_in_url. rewrite andb_true_iff, negb_true_iff. tauto.
Qed.

End Login.

Section LoginExamples.

(** C6, at the failing input.  With credentials set and a browser whose
    first navigation times out, [login] does not return [False]: the
    time-out leaves it as an exception. *)
Theorem login_raises_on_navigation_timeout :
  login Site.site Site.me (Site.start no_network)
  = (Py.Raise Py.PlaywrightTimeout,
     State no_network [Called (Goto BASE_URL)]).
Proof.
  exact (login_goto_raises Site.site Site.me (Site.start no_network)
           Py.PlaywrightTimeout no_network eq_refl eq_refl).
Qed.

(** The same browser with the network up: [login] returns [True]; and
    without a password it returns [False] and calls nothing. *)
Lemma login_examples :
  fst (login Site.site Site.me (Site.start Site.two_pages)) = Py.Ok true
  /\ login Site.site (Bot (Some "me@example.org") None 60000)
       (Site.start Site.two_pages)
     = (Py.Ok false, Site.start Site.two_pages).
Proof. split; [reflexivity | now apply login_without_credentials]. Qed.

End LoginExamples.

(** ** [apply_to_lottery_by_click] *)

Section OutOfRange.
Context {world element : Type}.
Variable b : browser world element.
Variable self : HousingConnectBot.
Implicit Types st : state world element.

Lemma out_of_range_message_inj (i j : Z) :
  out_of_range_message i = out_of_range_message j -> i = j.
Proof.
  unfold out_of_range_message, Py.str_of_int. intros H.
  apply (inj (String.append "Card index ")) in H.
  assert (Hlen : String.length (pretty i) = String.length (pretty j)).
  { apply (f_equal String.length) in H. rewrite !length_append in H. lia. }
  apply (inj pretty).
  rewrite <- (take_length (pretty i) " out of range"), H, Hlen.
  apply take_length.
Qed.

(** C7.  When the list view shows [cards] and the index is at least their
    number, the workflow stops right after counting the cards: it returns
    the failure outcome (not successful, not already applied, eligible, title
    [Unknown]) with the message [Card index <index> out of range], and the
    last call of the run is the query for the cards; no card is hovered or
    clicked.  The message determines the index. *)
Theorem apply_out_of_range (card_index : Z) (lottery_type : string) st st1
    (cards : list element) w2 :
  ensure_on_list b lottery_type st = (Py.Ok tt, st1) ->
  answer b (QuerySelectorAll "app-lottery-grid-card") (world_of st1)
    = (Py.Ok cards, w2) ->
  Z.of_nat (length cards) <= card_index ->
  apply_to_lottery_by_click b self card_index lottery_type st
  = (Py.Ok (Result.Build false
              ("Card index " +:+ pretty card_index +:+ " out of range")
              false true "Unknown"),
     State w2 (trace st1 ++ [Called (QuerySelectorAll "app-lottery-grid-card")]))
  /\ forall j, out_of_range_message j = out_of_range_message card_index ->
               j = card_index.
Proof.
  intros Hlist Hcards Hle.
  split; [| intros j Hj; exact (out_of_range_message_inj _ _ Hj)].
  unfold apply_to_lottery_by_click. unfold bind at 1. rewrite Hlist.
  unfold bind at 1, do at 1. rewrite Hcards.
  apply Z.leb_le in Hle. now rewrite Hle.
Qed.

End OutOfRange.

Section OutOfRangeExamples.

Lemma apply_out_of_range_witness :
  fst (apply_to_lottery_by_click Site.site Site.me 3 "sale"
         (Site.start Site.two_pages))
  = Py.Ok (Result.Build false "Card index 3 out of range" false true "Unknown").
Proof.
  refine (f_equal fst
            (proj1 (apply_out_of_range Site.site Site.me 3 "sale"
                      (Site.start Site.two_pages) _
                      (Site.CardEl <$> [0; 1; 2]%nat) _ eq_refl eq_refl _))).
  simpl. lia.
Defined.

End OutOfRangeExamples.

Section Outcomes.
Context {world element : Type}.
Variable b : browser world element.
Variable self : HousingConnectBot.
Implicit Types st : state world element.
Implicit Types r result : Result.dict.

Lemma undecided_set_title r (t : string) :
  undecided r -> undecided (Result.set_title t r).
Proof. now destruct r. Qed.

Lemma undecided_inv r :
  undecided r ->
  r = Result.Build false (Result.message r) false true (Result.title r).
Proof. destruct r. intros (Hs & Ha & He). simpl in *. now subst. Qed.

Lemma verdict_failed r (m : string) :
  undecided r -> failure_message m -> verdict self (Result.set_message m r).
Proof. intros Hr Hm. rewrite (undecided_inv r Hr). now apply Failed. Qed.

Lemma verdict_applied r (m : string) :
  undecided r ->
  m = "Successfully applied!" \/ m = "Application submitted (unverified)" ->
  verdict self (Result.set_message m (Result.set_success true r)).
Proof. intros Hr Hm. rewrite (undecided_inv r Hr). now apply Applied. Qed.

Lemma verdict_already r :
  undecided r ->
  verdict self (Result.set_message "Already applied"
             (Result.set_already_applied true r)).
Proof. intros Hr. rewrite (undecided_inv r Hr). apply AlreadyApplied. Qed.

Lemma verdict_not_eligible r (lo hi : Z) :
  undecided r -> ~ (lo <= annual_income self <= hi) ->
  verdict self (Result.set_message (not_eligible_message self lo hi)
             (Result.set_eligible false r)).
Proof. intros Hr H. rewrite (undecided_inv r Hr). now apply NotEligible. Qed.

(** The way back to the list leaves the outcome as it is. *)
Lemma back_to_list_same (ty : string) r st :
  ensures (back_to_list b ty r) st (fun r' _ => r' = r).
Proof.
  unfold back_to_list.
  do 5 (apply ensures_bind, ensures_all; intros ? ?).
  reflexivity.
Qed.

Lemma check_success_verdict (ty : string) r st :
  undecided r -> ensures (check_success b ty r) st (fun r' _ => verdict self r').
Proof.
  intros Hr. unfold check_success.
  apply ensures_bind, ensures_all. intros applied_check st1.
  apply ensures_bind.
  assert (Hback : forall r0 st0, verdict self r0 ->
            ensures (back_to_list b ty r0) st0 (fun r' _ => verdict self r')).
  { intros r0 st0 H0. eapply ensures_weaken; [| apply back_to_list_same].
    now intros ? ? ->. }
  destruct applied_check as [el|].
  - apply ensures_ret, Hback. apply verdict_applied; auto.
  - apply ensures_bind, ensures_all. intros u st2.
    apply ensures_bind, ensures_all. intros on_login st3.
    destruct on_login; apply ensures_ret, Hback.
    + apply verdict_failed; [assumption | constructor].
    + apply verdict_applied; auto.
Qed.

Lemma submit_application_verdict (ty : string) r st :
  undecided r ->
  ensures (submit_application b ty r) st (fun r' _ => verdict self r').
Proof.
  intros Hr. unfold submit_application.
  do 3 (apply ensures_bind, ensures_all; intros ? ?).
  match goal with |- ensures (match ?x with _ => _ end) _ _ => destruct x end.
  - do 3 (apply ensures_bind, ensures_all; intros ? ?).
    now apply check_success_verdict.
  - apply ensures_ret, verdict_failed; [assumption | constructor].
Qed.

Lemma check_eligibility_verdict (ty : string) r st :
  undecided r ->
  ensures (check_eligibility b self ty r) st (fun r' _ => verdict self r').
Proof.
  intros Hr. unfold check_eligibility.
  do 2 (apply ensures_bind, ensures_all; intros ? ?).
  match goal with |- ensures (match ?x with _ => _ end) _ _ =>
    destruct x as [[lo|] [hi|]] end;
    try now apply submit_application_verdict.
  destruct ((lo <=? annual_income self) && (annual_income self <=? hi))
    eqn:Hin; cbn [negb]; [now apply submit_application_verdict |].
  apply ensures_ret, verdict_not_eligible; [assumption |].
  intros [H1 H2]. apply Z.leb_le in H1, H2. now rewrite H1, H2 in Hin.
Qed.

Lemma check_detail_applied_verdict (ty : string) r st :
  undecided r ->
  ensures (check_detail_applied b self ty r) st (fun r' _ => verdict self r').
Proof.
  intros Hr. unfold check_detail_applied.
  do 3 (apply ensures_bind, ensures_all; intros ? ?).
  match goal with |- ensures (if ?c then _ else _) _ _ => destruct c end.
  - apply ensures_ret. now apply verdict_already.
  - now apply check_eligibility_verdict.
Qed.

Lemma open_detail_verdict (ty : string) (card : element) r st :
  undecided r ->
  ensures (open_detail b self ty card r) st (fun r' _ => verdict self r').
Proof.
  intros Hr. unfold open_detail.
  do 3 (apply ensures_bind, ensures_all; intros ? ?).
  match goal with |- ensures (match ?x with _ => _ end) _ _ => destruct x end.
  - do 4 (apply ensures_bind, ensures_all; intros ? ?).
    now apply check_detail_applied_verdict.
  - apply ensures_ret, verdict_failed; [assumption | constructor].
Qed.

Lemma initial_result_undecided : undecided initial_result.
Proof. now repeat split. Qed.

(** Every outcome of the workflow is of one of the four kinds. *)
Lemma apply_verdict (card_index : Z) (lottery_type : string) st :
  ensures (apply_to_lottery_by_click b self card_index lottery_type) st
    (fun r _ => verdict self r).
Proof.
  unfold apply_to_lottery_by_click.
  do 2 (apply ensures_bind, ensures_all; intros ? ?).
  match goal with |- ensures (if ?c then _ else _) _ _ => destruct c end.
  - apply ensures_ret, verdict_failed;
      [apply initial_result_undecided | constructor].
  - apply ensures_bind, ensures_all; intros card st3.
    apply ensures_bind, ensures_all; intros title_el st4.
    apply ensures_bind, ensures_all; intros title st5.
    apply ensures_bind, ensures_all; intros is_applied st6.
    pose proof (undecided_set_title initial_result title
                  initial_result_undecided) as Hu.
    match goal with |- ensures (if ?c then _ else _) _ _ => destruct c end.
    + apply ensures_ret. now apply verdict_already.
    + now apply open_detail_verdict.
Qed.



End Outcomes.

Section Eligibility.
Context {world element : Type}.
Variable b : browser world element.
Variable self : HousingConnectBot.
Implicit Types st : state world element.
Implicit Types r result : Result.dict.



End Eligibility.

Section WorkflowExamples.




End WorkflowExamples.

(** ** The listing collector *)

Section Collector.
Context {world element : Type}.
Variable b : browser world element.
Implicit Types st : state world element.
Implicit Types l kept records : list LotteryInfo.

Lemma first_seen_after_app kept records1 records2 :
  first_seen_after kept (records1 ++ records2)
  = first_seen_after (first_seen_after kept records1) records2.
Proof.
  revert kept. induction records1 as [|r records1 IH]; intros kept; simpl.
  - reflexivity.
  - destruct (decide _); apply IH.
Qed.

(** The loop of the code over one page computes [first_seen_after], with
    the set [seen_ids] standing for the ids of [all_lotteries]. *)
Lemma add_new_first_seen (page : list LotteryInfo) (seen_ids : gset string)
    kept :
  seen_ids = list_to_set (Info.id <$> kept) ->
  add_new page seen_ids kept
  = (list_to_set (Info.id <$> first_seen_after kept page),
     first_seen_after kept page).
Proof.
  revert seen_ids kept.
  induction page as [|r page IH]; intros seen_ids kept Hseen; simpl.
  - now rewrite Hseen.
  - destruct (decide (Info.id r ∈ seen_ids)) as [Hin|Hout];
      destruct (decide (Info.id r ∈ Info.id <$> kept)) as [Hin'|Hout'].
    + now apply IH.
    + exfalso. apply Hout'. rewrite Hseen in Hin. now apply elem_of_list_to_set in Hin.
    + exfalso. apply Hout. rewrite Hseen. now apply elem_of_list_to_set.
    + apply IH. rewrite Hseen, fmap_app, list_to_set_app_L. simpl.
      rewrite (right_id_L ∅ (∪)). apply (comm_L (∪)).
Qed.

Lemma collect_pages_scan (lottery_type : string) (pages : list Z)
    (seen_ids : gset string) kept st :
  seen_ids = list_to_set (Info.id <$> kept) ->
  collect_pages b lottery_type pages seen_ids kept st
  = (pgs <- scan_pages b lottery_type pages;;
     ret (first_seen_after kept (concat pgs))) st.
Proof.
  revert seen_ids kept st.
  induction pages as [|p pages IH]; intros seen_ids kept st Hseen.
  - reflexivity.
  - cbn [collect_pages scan_pages].
    rewrite bind_assoc. apply bind_congr. intros _ st1.
    rewrite bind_assoc. apply bind_congr. intros page st2.
    rewrite bind_assoc.
    rewrite (add_new_first_seen page seen_ids kept Hseen).
    rewrite (IH _ _ st2 eq_refl). apply bind_congr. intros rest st3.
    unfold bind, ret. simpl. now rewrite first_seen_after_app.
Qed.

Lemma first_seen_after_nodup kept records :
  NoDup (Info.id <$> kept) ->
  NoDup (Info.id <$> first_seen_after kept records).
Proof.
  revert kept. induction records as [|r records IH]; intros kept Hk; simpl.
  - exact Hk.
  - destruct (decide _) as [Hin|Hout]; apply IH; [exact Hk |].
    rewrite fmap_app. apply NoDup_app. repeat split.
    + exact Hk.
    + intros x Hx Hx'. simpl in Hx'. apply list_elem_of_singleton in Hx'.
      now subst.
    + simpl. apply NoDup_singleton.
Qed.

(** What is appended is a subsequence of the records, in their order; every
    appended record is the first of its id and its id was not kept before. *)
Lemma first_seen_after_added kept records :
  exists added,
    first_seen_after kept records = kept ++ added
    /\ added `sublist_of` records
    /\ (forall r, r ∈ records ->
          Info.id r ∈ Info.id <$> (kept ++ added))
    /\ (forall r, r ∈ added ->
          (Info.id r ∉ Info.id <$> kept)
          /\ exists before after,
               records = before ++ r :: after
               /\ Info.id r ∉ Info.id <$> before).
Proof.
  revert kept. induction records as [|r records IH]; intros kept; simpl.
  - exists []. rewrite app_nil_r.
    split; [reflexivity |]. split; [constructor |].
    split; intros r Hr; now apply elem_of_nil in Hr.
  - destruct (decide (Info.id r ∈ Info.id <$> kept)) as [Hin|Hout].
    + destruct (IH kept) as (added & Heq & Hsub & Hall & Hfirst).
      exists added. split; [exact Heq |]. split; [now apply sublist_cons |].
      split.
      * intros r' Hr'. apply elem_of_cons in Hr' as [-> | Hr']; [| auto].
        rewrite fmap_app. apply elem_of_app. now left.
      * intros r' Hr'. destruct (Hfirst r' Hr') as (Hk & before & after & -> & Hb).
        split; [exact Hk |].
        exists (r :: before), after. split; [reflexivity |].
        simpl. intros Hc. apply elem_of_cons in Hc as [Hc | Hc]; [| auto].
        apply Hk. now rewrite Hc.
    + destruct (IH (kept ++ [r])) as (added & Heq & Hsub & Hall & Hfirst).
      exists (r :: added). rewrite Heq, <- app_assoc. simpl.
      split; [reflexivity |]. split; [now apply sublist_skip |].
      split.
      * intros r' Hr'. apply elem_of_cons in Hr' as [-> | Hr'].
        -- rewrite fmap_app. apply elem_of_app. right. simpl. left.
        -- specialize (Hall r' Hr'). now rewrite <- app_assoc in Hall.
      * intros r' Hr'. apply elem_of_cons in Hr' as [-> | Hr'].
        -- split; [exact Hout |]. exists [], records. split; [reflexivity |].
           simpl. apply not_elem_of_nil.
        -- destruct (Hfirst r' Hr') as (Hk & before & after & -> & Hb).
           rewrite fmap_app in Hk. 
           split; [intros Hc; apply Hk, elem_of_app; now left |].
           exists (r :: before), after. split; [reflexivity |].
           simpl. intros Hc. apply elem_of_cons in Hc as [Hc | Hc]; [| auto].
           apply Hk, elem_of_app. right. simpl. rewrite Hc. left.
Qed.

(** C3.  [get_lottery_ids] is the collector of the specification: it
    returns the records of the pages, in the order of the pages and of the
    cards, without those whose id was seen before.  No two records of its
    result have the same id; the result is a subsequence of the records
    scanned; every id scanned is in it; and each record of it is the first
    scanned record with its id. *)
Theorem get_lottery_ids_first_seen (lottery_type : string) st :
  get_lottery_ids b lottery_type st = collect b lottery_type st
  /\ ensures (get_lottery_ids b lottery_type) st
       (fun l _ => NoDup (Info.id <$> l))
  /\ forall records,
       NoDup (Info.id <$> first_seen records)
       /\ first_seen records `sublist_of` records
       /\ (forall r, r ∈ records -> Info.id r ∈ Info.id <$> first_seen records)
       /\ (forall r, r ∈ first_seen records ->
             exists before after,
               records = before ++ r :: after
               /\ Info.id r ∉ Info.id <$> before).
Proof.
  assert (Heq : get_lottery_ids b lottery_type st = collect b lottery_type st).
  { unfold get_lottery_ids, collect.
    apply bind_congr. intros _ st1. apply bind_congr. intros total st2.
    now apply collect_pages_scan. }
  assert (Hnodup : forall records, NoDup (Info.id <$> first_seen records)).
  { intros records. apply first_seen_after_nodup. simpl. apply NoDup_nil_2. }
  split; [exact Heq |]. split.
  - unfold ensures. rewrite Heq. unfold collect.
    apply ensures_bind, ensures_all. intros _ st1.
    apply ensures_bind, ensures_all. intros total st2.
    apply ensures_bind, ensures_all. intros pages st3.
    apply ensures_ret, Hnodup.
  - intros records. split; [apply Hnodup |].
    destruct (first_seen_after_added [] records)
      as (added & Heq' & Hsub & Hall & Hfirst).
    unfold first_seen. rewrite Heq'. simpl in *.
    split; [exact Hsub |]. split; [exact Hall |].
    intros r Hr. now destruct (Hfirst r Hr) as [_ H].
Qed.

End Collector.

Section CollectorExamples.

Lemma get_lottery_ids_first_seen_witness :
  exists l,
    fst (get_lottery_ids Site.site "sale" (Site.start overlapping_pages))
      = Py.Ok l
    /\ Info.id <$> l = ["101"; "102"; "103"; "104"; "105"]
    /\ NoDup (Info.id <$> l).
Proof.
  destruct (get_lottery_ids Site.site "sale" (Site.start overlapping_pages))
    as [r st'] eqn:Hrun.
  pose proof (proj1 (proj2 (get_lottery_ids_first_seen Site.site "sale"
                              (Site.start overlapping_pages)))) as Hnodup.
  unfold ensures in Hnodup. rewrite Hrun in Hnodup.
  vm_compute in Hrun. injection Hrun as <- _.
  eexists. split; [reflexivity |]. split; [reflexivity | exact Hnodup].
Defined.

End CollectorExamples.

(** ** The batch script *)

Section Batch.
Context {world element : Type}.
Variable b : browser world element.
Variable self : HousingConnectBot.
Implicit Types st : state world element.





End Batch.

Section BatchExamples.



End BatchExamples.

(** * Further properties *)

(** ** What a match tells about the text *)

Section RegexSoundness.
Variable ic : bool.

Lemma star_sound (p : ascii -> bool) (s : string)
    (k : string -> option Re.groups) (g : Re.groups) :
  Re.star p s k = Some g ->
  exists run rest,
    s = run +:+ rest /\ Py.all_chars p run = true /\ k rest = Some g.
Proof.
  induction s as [|a s IH]; simpl; intros H.
  - now exists EmptyString, EmptyString.
  - destruct (p a) eqn:Ha; [| now exists EmptyString, (String a s)].
    destruct (Re.star p s k) as [g'|] eqn:Hs.
    + injection H as ->.
      destruct (IH eq_refl) as (run & rest & -> & Hrun & Hk).
      exists (String a run), rest. rewrite append_cons. simpl.
      now rewrite Ha, Hrun.
    + now exists EmptyString, (String a s).
Qed.

Lemma group_plus_sound (n : nat) (p : ascii -> bool) (s : string)
    (g x : Re.groups) (k : string -> Re.groups -> option Re.groups) :
  Re.matches ic (Re.Group n (Re.Plus p)) s g k = Some x ->
  exists run rest,
    s = run +:+ rest /\ run <> EmptyString
    /\ Py.all_chars p run = true /\ k rest ((n, run) :: g) = Some x.
Proof.
  cbn [Re.matches Re.Plus]. destruct s as [|a s]; [discriminate |].
  destruct (p a) eqn:Ha; [| discriminate]. intros H.
  apply star_sound in H as (run & rest & -> & Hrun & Hk).
  exists (String a run), rest. rewrite append_cons.
  split; [reflexivity |]. split; [discriminate |].
  split; [simpl; now rewrite Ha, Hrun |].
  rewrite <- append_cons, take_append in Hk. exact Hk.
Qed.





Lemma search_sound (r : Re.regex) (s : string) (g : Re.groups) :
  Re.search ic r s = Some g ->
  exists pre suf, s = pre +:+ suf /\ Re.match_here ic r suf = Some g.
Proof.
  induction s as [|a s IH]; simpl.
  - destruct (Re.match_here ic r EmptyString) eqn:H; [| discriminate].
    intros [= <-]. now exists EmptyString, EmptyString.
  - destruct (Re.match_here ic r (String a s)) eqn:H.
    + intros [= <-]. now exists EmptyString, (String a s).
    + intros Hs. destruct (IH Hs) as (pre & suf & -> & Hm).
      now exists (String a pre), suf.
Qed.

End RegexSoundness.

Section ExactWords.

Lemma word_sound (w s : string) (g x : Re.groups)
    (k : string -> Re.groups -> option Re.groups) :
  Re.matches false (Re.Word w) s g k = Some x ->
  exists rest, s = w +:+ rest /\ k rest g = Some x.
Proof.
  revert s. induction w as [|c w IH]; intros s; [simpl; eauto |].
  cbn [Re.Word]. rewrite matches_cat. simpl.
  destruct s as [|a s]; [discriminate |].
  destruct (Ascii.eqb a c) eqn:Hac; [| discriminate].
  apply Ascii.eqb_eq in Hac as ->. intros H.
  destruct (IH s H) as (rest & -> & Hk). eauto.
Qed.

Lemma startswith_self (n rest : string) : Py.startswith n (n +:+ rest) = true.
Proof.
  induction n as [|a n IH]; [reflexivity |].
  rewrite append_cons. simpl. now rewrite Ascii.eqb_refl.
Qed.

Lemma contains_middle (pre n rest : string) :
  Py.contains n (pre +:+ n +:+ rest) = true.
Proof.
  induction pre as [|a pre IH].
  - rewrite append_nil. destruct (n +:+ rest) eqn:E; simpl;
      rewrite <- E, startswith_self; reflexivity.
  - rewrite append_cons. simpl. rewrite IH. apply orb_true_r.
Qed.

(** A match of the image pattern: the group is a non-empty run of digits
    that stands in the text between [/photos/] and a dot. *)
Lemma photo_id_sound (src : string) (m : Re.groups) :
  Re.search false Patterns.photo_id src = Some m ->
  group_text m 1 <> EmptyString
  /\ Py.all_chars Py.is_digit (group_text m 1) = true
  /\ Py.contains ("/photos/" +:+ group_text m 1 +:+ ".") src = true.
Proof.
  intros H. apply search_sound in H as (pre & suf & -> & H).
  unfold Re.match_here, Patterns.photo_id in H. rewrite matches_cat in H.
  apply word_sound in H as (rest & -> & H). rewrite matches_cat in H.
  apply group_plus_sound in H as (run & rest' & -> & Hne & Hrun & H).
  simpl in H. destruct rest' as [|a rest']; [discriminate |].
  destruct (Ascii.eqb a ".") eqn:Ha; [| discriminate].
  apply Ascii.eqb_eq in Ha as ->. injection H as <-.
  cbn [group_text Re.group Nat.eqb default from_option].
  split; [exact Hne |]. split; [exact Hrun |].
  replace (pre +:+ "/photos/" +:+ run +:+ String "." rest')
    with (pre +:+ ("/photos/" +:+ run +:+ ".") +:+ rest').
  - apply contains_middle.
  - now rewrite !append_assoc.
Qed.

End ExactWords.

(** ** The records of the card extractor and of the collector *)

Section Records.
Context {world element : Type}.
Variable b : browser world element.
Implicit Types st : state world element.

Lemma parse_id_sound (card : element) st (i : string) st' :
  parse_id b card st = (Py.Ok (Some i), st') ->
  exists img w1 src w2,
    answer b (ElQuerySelector card "img.card-image") (world_of st)
      = (Py.Ok (Some img), w1)
    /\ answer b (ElGetAttribute img "src") w1 = (Py.Ok (Some src), w2)
    /\ i <> EmptyString /\ Py.all_chars Py.is_digit i = true
    /\ Py.contains ("/photos/" +:+ i +:+ ".") src = true.
Proof.
  unfold parse_id, bind, do, ret.
  destruct (answer b (ElQuerySelector card "img.card-image") (world_of st))
    as [[[img|]|e] w1] eqn:Himg; cbn [world_of trace]; try discriminate.
  destruct (answer b (ElGetAttribute img "src") w1) as [[[src|]|e] w2] eqn:Hsrc;
    cbn [world_of trace]; try discriminate.
  destruct (truthy src); [| discriminate].
  destruct (Re.search false Patterns.photo_id src) as [m|] eqn:Hm;
    [| discriminate].
  intros [= <- _]. exists img, w1, src, w2.
  split; [reflexivity |]. split; [exact Hsrc |].
  now apply photo_id_sound.
Qed.

Lemma parse_lottery_card_sound (card : element) (lottery_type : string)
    st (r : LotteryInfo) st' :
  _parse_lottery_card b card lottery_type st = (Py.Ok (Some r), st') ->
  well_formed lottery_type r
  /\ exists img w1 src w2,
       answer b (ElQuerySelector card "img.card-image") (world_of st)
         = (Py.Ok (Some img), w1)
       /\ answer b (ElGetAttribute img "src") w1 = (Py.Ok (Some src), w2)
       /\ Py.contains ("/photos/" +:+ Info.id r +:+ ".") src = true.
Proof.
  unfold _parse_lottery_card, card_fields, try_except, bind.
  destruct (parse_id b card st) as [[i|e] st1] eqn:Hi; [| discriminate].
  destruct (parse_title b card st1) as [[title|e] st2]; [| discriminate].
  destruct (parse_location b card st2) as [[loc|e] st3]; [| discriminate].
  destruct (parse_count b card ".pb-xs.title-h6" false Patterns.units st3)
    as [[units|e] st4]; [| discriminate].
  destruct (parse_count b card ".prefix.title-h4" true Patterns.days st4)
    as [[days|e] st5]; [| discriminate].
  destruct (parse_applied b card st5) as [[ap|e] st6]; [| discriminate].
  unfold ret, make_info. destruct i as [i|]; [| discriminate].
  destruct (truthy i); [| discriminate]. intros [= <- _].
  destruct (parse_id_sound card st i st1 Hi)
    as (img & w1 & src & w2 & Himg & Hsrc & Hne & Hdigits & Hin).
  split; [now repeat split |].
  now exists img, w1, src, w2.
Qed.

(** X1.  A record returned by [_parse_lottery_card] has an id that is a
    non-empty run of digits, read from the [src] of the card's image where
    it stands between [/photos/] and a dot; its address is the base address,
    [/lottery-details/] and the id; its category is the one asked for; its
    income bounds are not set. *)
Theorem parse_lottery_card_record (card : element) (lottery_type : string)
    st (r : LotteryInfo) st' :
  _parse_lottery_card b card lottery_type st = (Py.Ok (Some r), st') ->
  well_formed lottery_type r
  /\ exists img w1 src w2,
       answer b (ElQuerySelector card "img.card-image") (world_of st)
         = (Py.Ok (Some img), w1)
       /\ answer b (ElGetAttribute img "src") w1 = (Py.Ok (Some src), w2)
       /\ Py.contains ("/photos/" +:+ Info.id r +:+ ".") src = true.
Proof. apply parse_lottery_card_sound. Qed.

Lemma parse_cards_well_formed (lottery_type : string) (cards : list element)
    (lotteries : list LotteryInfo) st :
  Forall (well_formed lottery_type) lotteries ->
  ensures (parse_cards b lottery_type cards lotteries) st
    (fun l _ =>
       Forall (well_formed lottery_type) l
       /\ (length l <= length lotteries + length cards)%nat).
Proof.
  revert lotteries st.
  induction cards as [|card cards IH]; intros lotteries st Hwf.
  - apply ensures_ret. split; [exact Hwf | simpl; lia].
  - cbn [parse_cards]. apply ensures_bind. unfold ensures at 1.
    destruct (_parse_lottery_card b card lottery_type st)
      as [[[r|]|e] st1] eqn:Hr; [| | exact I].
    + eapply ensures_weaken; [| apply IH].
      * intros l st2 [Hl Hlen]. split; [exact Hl |].
        rewrite length_app in Hlen. simpl in *. lia.
      * apply Forall_app. split; [exact Hwf |].
        apply Forall_singleton.
        apply (parse_lottery_card_sound _ _ _ _ _ Hr).
    + eapply ensures_weaken; [| apply IH, Hwf].
      intros l st2 [Hl Hlen]. split; [exact Hl | simpl; lia].
Qed.

(** X2.  The scan of a page returns at most one record per card of the
    page, each of them well formed for the category asked for. *)
Theorem page_scan_records (lottery_type : string) st
    (cards : list element) w1 (l : list LotteryInfo) st' :
  answer b (QuerySelectorAll "app-lottery-grid-card")
    (elapse b 1000 1000 (world_of st)) = (Py.Ok cards, w1) ->
  _get_lotteries_from_current_page b lottery_type st = (Py.Ok l, st') ->
  Forall (well_formed lottery_type) l /\ (length l <= length cards)%nat.
Proof.
  intros Hcards.
  unfold _get_lotteries_from_current_page, bind, sleep, sleep_uniform, do.
  cbn [world_of trace]. rewrite Hcards.
  destruct cards as [|c cards].
  - intros [= <- _]. split; [constructor | reflexivity].
  - intros Hl.
    exact (ensures_elim _ _ _ _ _
             (parse_cards_well_formed lottery_type (c :: cards) [] _
                (Forall_nil_2 _)) Hl).
Qed.

Lemma page_scan_well_formed (lottery_type : string) st :
  ensures (_get_lotteries_from_current_page b lottery_type) st
    (fun l _ => Forall (well_formed lottery_type) l).
Proof.
  unfold _get_lotteries_from_current_page.
  apply ensures_bind, ensures_all. intros _ st1.
  apply ensures_bind, ensures_all. intros cards st2.
  destruct cards as [|c cards]; [apply ensures_ret; constructor |].
  eapply ensures_weaken; [| apply parse_cards_well_formed; constructor].
  now intros l st3 [Hl _].
Qed.

Lemma scan_pages_well_formed (lottery_type : string) (pages : list Z) st :
  ensures (scan_pages b lottery_type pages) st
    (fun pgs _ => Forall (Forall (well_formed lottery_type)) pgs).
Proof.
  revert st. induction pages as [|p pages IH]; intros st.
  - apply ensures_ret. constructor.
  - cbn [scan_pages]. apply ensures_bind, ensures_all. intros _ st1.
    apply ensures_bind.
    eapply ensures_weaken; [| apply page_scan_well_formed].
    intros page st2 Hpage. apply ensures_bind.
    eapply ensures_weaken; [| apply IH].
    intros rest st3 Hrest. apply ensures_ret. now constructor.
Qed.

Lemma get_lottery_ids_well_formed (lottery_type : string) st :
  ensures (get_lottery_ids b lottery_type) st
    (fun l _ =>
       Forall (well_formed lottery_type) l /\ NoDup (Info.id <$> l)).
Proof.
  assert (Heq : get_lottery_ids b lottery_type st = collect b lottery_type st).
  { unfold get_lottery_ids, collect.
    apply bind_congr. intros _ st1. apply bind_congr. intros total st2.
    now apply collect_pages_scan. }
  unfold ensures. rewrite Heq. unfold collect.
  apply ensures_bind, ensures_all. intros _ st1.
  apply ensures_bind, ensures_all. intros total st2.
  apply ensures_bind.
  eapply ensures_weaken; [| apply scan_pages_well_formed].
  intros pgs st3 Hpgs. apply ensures_ret. split.
  - destruct (first_seen_after_added [] (concat pgs))
      as (added & Hadd & Hsub & _).
    unfold first_seen. rewrite Hadd. simpl.
    assert (Hall : Forall (well_formed lottery_type) (concat pgs)).
    { clear -Hpgs. induction Hpgs as [|page pgs Hpage _ IH]; simpl.
      - constructor.
      - apply Forall_app. now split. }
    rewrite Forall_forall in Hall.
    apply (Forall_forall (well_formed lottery_type)). intros r Hr.
    apply Hall. eapply elem_of_sublist; eauto.
  - apply first_seen_after_nodup. constructor.
Qed.

End Records.

Section RecordsExamples.

Lemma parse_lottery_card_record_witness :
  exists r st',
    _parse_lottery_card Site.site (Site.CardEl 2) "rental"
      (Site.start odd_cards) = (Py.Ok (Some r), st')
    /\ well_formed "rental" r
    /\ Info.id r = "101".
Proof.
  eexists _, _. split; [vm_compute; reflexivity |].
  split; [| reflexivity].
  exact (proj1 (parse_lottery_card_record Site.site (Site.CardEl 2) "rental"
                  (Site.start odd_cards) _ _ eq_refl)).
Defined.

Lemma page_scan_records_witness :
  exists l,
    fst (_get_lotteries_from_current_page Site.site "rental"
           (Site.start odd_cards)) = Py.Ok l
    /\ Forall (well_formed "rental") l
    /\ (length l <= 3)%nat.
Proof.
  destruct (_get_lotteries_from_current_page Site.site "rental"
              (Site.start odd_cards)) as [r st'] eqn:Hrun.
  assert (Hr : exists l, r = Py.Ok l).
  { vm_compute in Hrun. injection Hrun as <- _. now eexists. }
  destruct Hr as [l ->]. exists l. split; [reflexivity |].
  exact (page_scan_records Site.site "rental" (Site.start odd_cards)
           (Site.CardEl <$> [0; 1; 2]%nat) _ l st' eq_refl Hrun).
Defined.

End RecordsExamples.

(** ** The browser session *)

Section Session.
Context {world element : Type}.
Variable b : browser world element.
Variable self : HousingConnectBot.
Implicit Types st : state world element.

Lemma ensures_with_bot {A} (body : M A) st
    (Q : A -> state world element -> Prop) :
  (forall st1, ensures body st1 (fun a _ => forall st2, Q a st2)) ->
  ensures (with_bot b body) st Q.
Proof.
  intros Hbody. unfold with_bot.
  apply ensures_bind, ensures_all. intros _ st1.
  apply ensures_bind. apply ensures_try_except.
  - eapply ensures_weaken; [| apply Hbody].
    intros a st2 Ha. apply ensures_bind, ensures_all. intros _ st3.
    apply ensures_ret, Ha.
  - intros e st2. apply ensures_bind, ensures_all. now intros _ st3.
Qed.

(** X3.  The browser session of the entry points ([with HousingConnectBot
    (...) as bot]): when the browser cannot be started the exception leaves
    at once and nothing else is called; once it is started, the last call of
    the run is the one that closes it, whether the body returns or raises;
    and an exception of the body is not turned into a result. *)
Theorem with_bot_closes {A} (body : M A) st :
  match answer b Start (world_of st) with
  | (Py.Raise e, w) =>
      with_bot b body st = (Py.Raise e, State w (trace st ++ [Called Start]))
  | (Py.Ok _, w) =>
      (exists tr, trace (snd (with_bot b body st)) = tr ++ [Called Close])
      /\ (forall e st1,
            body (State w (trace st ++ [Called Start])) = (Py.Raise e, st1) ->
            exists e', fst (with_bot b body st) = Py.Raise e')
  end.
Proof.
  unfold with_bot, bind, try_except, do, ret, raise.
  destruct (answer b Start (world_of st)) as [[[]|e] w]; [| reflexivity].
  destruct (body (State w (trace st ++ [Called Start]))) as [[a|e] st1];
    cbn [world_of trace].
  - split; [| discriminate].
    destruct (answer b Close (world_of st1)) as [[[]|e] w1];
      cbn [snd trace]; eauto.
  - split.
    + destruct (answer b Close (world_of st1)) as [[[]|e'] w1];
        cbn [snd trace]; eauto.
    + intros e0 st0 _.
      destruct (answer b Close (world_of st1)) as [[[]|e'] w1];
        cbn [fst]; eauto.
Qed.

(** X4.  [get_all_lottery_ids]: both lists it returns are well formed, the
    first for the category [rental] and the second for [sale], and neither
    holds an id twice. *)
Theorem get_all_lottery_ids_records st
    (rentals sales : list LotteryInfo) st' :
  get_all_lottery_ids b st = (Py.Ok (rentals, sales), st') ->
  Forall (well_formed "rental") rentals /\ NoDup (Info.id <$> rentals)
  /\ Forall (well_formed "sale") sales /\ NoDup (Info.id <$> sales).
Proof.
  apply (ensures_elim _ _
           (fun r _ =>
              Forall (well_formed "rental") (fst r)
              /\ NoDup (Info.id <$> fst r)
              /\ Forall (well_formed "sale") (snd r)
              /\ NoDup (Info.id <$> snd r))).
  unfold get_all_lottery_ids. apply ensures_with_bot. intros st1.
  apply ensures_bind.
  eapply ensures_weaken; [| apply get_lottery_ids_well_formed].
  intros l1 st2 [Hwf1 Hnd1]. apply ensures_bind.
  eapply ensures_weaken; [| apply get_lottery_ids_well_formed].
  intros l2 st3 [Hwf2 Hnd2]. apply ensures_ret. now intros _.
Qed.

(** X5.  [check_and_apply] never applies: whenever it returns, it returns
    the dictionary of the failed login.  After a successful login it calls
    [bot.apply_to_lottery], which the class does not define, so it closes
    the browser and raises [AttributeError]. *)
Theorem check_and_apply_never_applies (lottery_id : string) st :
  ensures (check_and_apply b self lottery_id) st
    (fun r _ => r = LoginFailure false "Login failed" lottery_id)
  /\ forall w1 st2 w3,
       answer b Start (world_of st) = (Py.Ok tt, w1) ->
       login b self (State w1 (trace st ++ [Called Start]))
         = (Py.Ok true, st2) ->
       answer b Close (world_of st2) = (Py.Ok tt, w3) ->
       check_and_apply b self lottery_id st
       = (Py.Raise Py.AttributeError, State w3 (trace st2 ++ [Called Close])).
Proof.
  split.
  - unfold check_and_apply. apply ensures_with_bot. intros st1.
    apply ensures_bind, ensures_all. intros logged_in st2.
    destruct logged_in; cbn [negb]; [exact I | now apply ensures_ret].
  - intros w1 st2 w3 Hstart Hlogin Hclose.
    unfold check_and_apply, with_bot, bind at 1, do at 1. rewrite Hstart.
    unfold bind at 1, try_except, bind at 1. rewrite Hlogin.
    cbn [negb]. unfold apply_to_lottery, raise, bind, do. now rewrite Hclose.
Qed.

End Session.

Section SessionExamples.

Lemma with_bot_closes_witness :
  exists tr,
    trace (snd (with_bot Site.site (login Site.site Site.me)
                  (Site.start Site.two_pages)))
    = tr ++ [Called Close].
Proof.
  exact (proj1 (with_bot_closes Site.site (login Site.site Site.me)
                  (Site.start Site.two_pages))).
Defined.

Lemma get_all_lottery_ids_records_witness :
  exists rentals sales st',
    get_all_lottery_ids Site.site (Site.start overlapping_pages)
      = (Py.Ok (rentals, sales), st')
    /\ Info.id <$> rentals = ["101"; "102"; "103"; "104"; "105"]
    /\ Forall (well_formed "rental") rentals
    /\ NoDup (Info.id <$> sales).
Proof.
  destruct (get_all_lottery_ids Site.site (Site.start overlapping_pages))
    as [[[rentals sales]|e] st'] eqn:Hrun; [| vm_compute in Hrun; discriminate].
  destruct (get_all_lottery_ids_records Site.site _ _ _ _ Hrun)
    as (Hwf & _ & _ & Hnd).
  exists rentals, sales, st'. split; [reflexivity |].
  split; [| now split].
  vm_compute in Hrun. now injection Hrun as <- _ _.
Defined.

Lemma check_and_apply_never_applies_witness :
  fst (check_and_apply Site.site Site.me "101" (Site.start Site.two_pages))
  = Py.Raise Py.AttributeError.
Proof.
  refine (f_equal fst
            (proj2 (check_and_apply_never_applies Site.site Site.me "101"
                      (Site.start Site.two_pages)) _ _ _
               eq_refl eq_refl eq_refl)).
Defined.

End SessionExamples.

(** ** Outcomes and their summary *)

Section Summary.
Context {world element : Type}.
Variable b : browser world element.
Variable self : HousingConnectBot.
Implicit Types st : state world element.
Implicit Types rs : list Result.dict.

(** X6.  Every outcome [apply_to_lottery_by_click] returns is of one of
    four kinds, each with its own messages: applied (successful only,
    [Successfully applied!] or [Application submitted (unverified)]), already
    applied (that reason only, [Already applied]), not eligible (that reason
    only, the message with the income and the two bounds of a range that
    excludes the income), or failed (none of the three reasons; index out of
    range, [View Details] or [Apply Now] not found, redirected to login). *)
Theorem apply_outcome_kinds (card_index : Z) (lottery_type : string)
    st (r : Result.dict) st' :
  apply_to_lottery_by_click b self card_index lottery_type st = (Py.Ok r, st') ->
  verdict self r.
Proof.
  exact (ensures_elim _ _ _ _ _ (apply_verdict b self card_index lottery_type st)).
Qed.

(** An outcome of one of the four kinds falls in exactly one of the four
    lists of the summary. *)
Lemma verdict_one_bucket (r : Result.dict) rs :
  verdict self r ->
  (length (filter (fun r => Result.success r = true) (r :: rs))
   + length (filter (fun r => Result.already_applied r = true) (r :: rs))
   + length (filter (fun r => Result.eligible r = false) (r :: rs))
   + length (filter (fun r => Result.success r = false
                              /\ Result.already_applied r = false
                              /\ Result.eligible r = true) (r :: rs))
   = S (length (filter (fun r => Result.success r = true) rs)
        + length (filter (fun r => Result.already_applied r = true) rs)
        + length (filter (fun r => Result.eligible r = false) rs)
        + length (filter (fun r => Result.success r = false
                                   /\ Result.already_applied r = false
                                   /\ Result.eligible r = true) rs)))%nat.
Proof.
  intros Hr. rewrite !filter_cons.
  destruct Hr; repeat (destruct (decide _) as [?|?]);
    cbn [Result.success Result.already_applied Result.eligible] in *;
    try congruence; try tauto; simpl; lia.
Qed.

Lemma verdicts_partition rs :
  Forall (verdict self) rs ->
  (length (filter (fun r => Result.success r = true) rs)
   + length (filter (fun r => Result.already_applied r = true) rs)
   + length (filter (fun r => Result.eligible r = false) rs)
   + length (filter (fun r => Result.success r = false
                              /\ Result.already_applied r = false
                              /\ Result.eligible r = true) rs)
   = length rs)%nat.
Proof.
  induction 1 as [|r rs Hr _ IH]; [reflexivity |].
  rewrite (verdict_one_bucket r rs Hr), IH. reflexivity.
Qed.

Lemma process_cards_verdicts (page_num : Z) (card_data : list CardData)
    rs (processed_titles : gset string) st :
  Forall (verdict self) rs ->
  ensures (process_cards b self page_num card_data rs processed_titles) st
    (fun r _ => Forall (verdict self) (fst r)).
Proof.
  revert rs processed_titles st.
  induction card_data as [|data rest IH]; intros rs processed_titles st Hrs.
  - now apply ensures_ret.
  - cbn [process_cards].
    destruct (decide (card_title data ∈ processed_titles)); [now apply IH |].
    destruct (card_is_applied_flag data).
    + apply IH, Forall_app. split; [exact Hrs |].
      apply Forall_singleton, AlreadyApplied.
    + do 3 (apply ensures_bind, ensures_all; intros ? ?).
      apply ensures_bind.
      eapply ensures_weaken; [| apply apply_verdict].
      intros r st4 Hr. apply ensures_bind, ensures_all. intros _ st5.
      apply IH, Forall_app. split; [exact Hrs |]. now apply Forall_singleton.
Qed.

Lemma process_pages_verdicts (pages : list Z) rs
    (processed_titles : gset string) st :
  Forall (verdict self) rs ->
  ensures (process_pages b self pages rs processed_titles) st
    (fun r _ => Forall (verdict self) (fst r)).
Proof.
  revert rs processed_titles st.
  induction pages as [|page_num pages IH]; intros rs processed_titles st Hrs.
  - now apply ensures_ret.
  - cbn [process_pages].
    do 3 (apply ensures_bind, ensures_all; intros ? ?).
    apply ensures_bind.
    eapply ensures_weaken; [| now apply process_cards_verdicts].
    intros [results titles] st4 H. now apply IH.
Qed.

(** X7.  The final summary of [apply_all_sales.py] loses and doubles
    nothing: every outcome [main] has recorded is of one of the four kinds,
    and the four lists of the summary (applied, already applied, not
    eligible, failed) together have as many entries as there are outcomes. *)
Theorem main_summary_partition st rs (titles : gset string) st' :
  main b self st = (Py.Ok (Some (rs, titles)), st') ->
  Forall (verdict self) rs
  /\ (let '(applied, already, not_eligible, failed) := summary rs in
      length applied + length already + length not_eligible + length failed
      = length rs)%nat.
Proof.
  intros Hrun.
  assert (Hrs : Forall (verdict self) rs).
  { revert Hrun.
    apply (ensures_elim _ _
             (fun r _ => from_option (fun x => Forall (verdict self) (fst x))
                           True r)).
    unfold main. apply ensures_with_bot. intros st1.
    apply ensures_bind, ensures_all. intros logged_in st2.
    destruct logged_in; cbn [negb]; [| now apply ensures_ret].
    do 2 (apply ensures_bind, ensures_all; intros ? ?).
    apply ensures_bind.
    eapply ensures_weaken; [| apply process_pages_verdicts; constructor].
    intros r st5 Hr. apply ensures_bind, ensures_all. intros _ st6.
    apply ensures_ret. now intros _. }
  split; [exact Hrs |]. unfold summary. now apply verdicts_partition.
Qed.

Lemma apply_cards_verdicts (lottery_type : string) (page_num : Z)
    (indices : list Z) rs st :
  Forall (verdict self) rs ->
  ensures (apply_cards b self lottery_type page_num indices rs) st
    (fun rs' _ =>
       Forall (verdict self) rs'
       /\ length rs' = (length rs + length indices)%nat).
Proof.
  revert rs st. induction indices as [|i indices IH]; intros rs st Hrs.
  - apply ensures_ret. split; [exact Hrs | simpl; lia].
  - cbn [apply_cards]. apply ensures_bind, ensures_all. intros _ st1.
    apply ensures_bind.
    eapply ensures_weaken; [| apply apply_verdict].
    intros r st2 Hr. apply ensures_bind, ensures_all. intros _ st3.
    eapply ensures_weaken; [| apply IH].
    + intros rs' st4 [Hrs' Hlen]. split; [exact Hrs' |].
      rewrite length_app in Hlen. simpl in *. lia.
    + apply Forall_app. split; [exact Hrs |]. now apply Forall_singleton.
Qed.

Lemma apply_cards_count (lottery_type : string) (page_num : Z)
    (indices : list Z) rs st :
  ensures (apply_cards b self lottery_type page_num indices rs) st
    (fun rs' _ => length rs' = (length rs + length indices)%nat).
Proof.
  revert rs st. induction indices as [|i indices IH]; intros rs st.
  - apply ensures_ret. simpl. lia.
  - cbn [apply_cards].
    do 3 (apply ensures_bind, ensures_all; intros ? ?).
    eapply ensures_weaken; [| apply IH].
    intros rs' st4 Hlen. rewrite length_app in Hlen. simpl in *. lia.
Qed.

Lemma apply_pages_verdicts (lottery_type : string) (pages : list Z) rs st :
  Forall (verdict self) rs ->
  ensures (apply_pages b self lottery_type pages rs) st
    (fun rs' _ => Forall (verdict self) rs').
Proof.
  revert rs st. induction pages as [|page_num pages IH]; intros rs st Hrs.
  - now apply ensures_ret.
  - cbn [apply_pages].
    do 2 (apply ensures_bind, ensures_all; intros ? ?).
    apply ensures_bind.
    eapply ensures_weaken; [| now apply apply_cards_verdicts].
    intros rs' st3 [Hrs' _]. now apply IH.
Qed.

(** X8.  [apply_to_all_lotteries]: on a page with [n] cards the loop over
    the cards records exactly [n] outcomes, one per index, when it returns;
    every outcome of the run is of one of the four kinds; and the four
    numbers of the summary add up to the number of outcomes. *)
Theorem apply_to_all_lotteries_summary (lottery_type : string) st :
  (forall page_num (cards : list element) rs st1,
     ensures (apply_cards b self lottery_type page_num
                (range 0 (Z.of_nat (length cards))) rs) st1
       (fun rs' _ => length rs' = (length rs + length cards)%nat))
  /\ ensures (apply_to_all_lotteries b self lottery_type) st
       (fun rs _ =>
          Forall (verdict self) rs
          /\ (let '(applied, already, not_eligible, failed) := tally rs in
              applied + already + not_eligible + failed = length rs)%nat).
Proof.
  split.
  - intros page_num cards rs st1.
    eapply ensures_weaken; [| apply apply_cards_count].
    intros rs' st2 ->. unfold range.
    rewrite length_fmap, length_seq. lia.
  - unfold apply_to_all_lotteries.
    do 2 (apply ensures_bind, ensures_all; intros ? ?).
    eapply ensures_weaken; [| apply apply_pages_verdicts; constructor].
    intros rs st3 Hrs. split; [exact Hrs |].
    unfold tally. now apply verdicts_partition.
Qed.

End Summary.

Section SummaryExamples.

Lemma apply_outcome_kinds_witness :
  fst (apply_to_lottery_by_click Site.site Site.me 0 "sale"
         (Site.start Site.two_pages)) = Py.Ok applied_outcome
  /\ verdict Site.me applied_outcome.
Proof.
  destruct (apply_to_lottery_by_click Site.site Site.me 0 "sale"
              (Site.start Site.two_pages)) as [r st'] eqn:Hrun.
  assert (Hr : r = Py.Ok applied_outcome).
  { vm_compute in Hrun. now injection Hrun as <- _. }
  subst r. split; [reflexivity |].
  exact (apply_outcome_kinds Site.site Site.me 0 "sale"
           (Site.start Site.two_pages) applied_outcome st' Hrun).
Defined.

Lemma main_summary_partition_witness :
  match fst (main Site.site Site.me (Site.start Site.two_pages)) with
  | Py.Ok (Some (rs, _)) =>
      length rs = 5%nat
      /\ Forall (verdict Site.me) rs
      /\ (let '(applied, already, not_eligible, failed) := summary rs in
          length applied + length already + length not_eligible
          + length failed = length rs)%nat
  | _ => False
  end.
Proof.
  assert (H5 : match fst (main Site.site Site.me (Site.start Site.two_pages))
               with
               | Py.Ok (Some (rs, _)) => length rs = 5%nat
               | _ => False
               end) by (vm_compute; reflexivity).
  destruct (main Site.site Site.me (Site.start Site.two_pages))
    as [[[[rs titles]|]|e] st'] eqn:Hrun; cbn [fst] in *;
    [| contradiction | contradiction].
  split; [exact H5 |].
  exact (main_summary_partition Site.site Site.me
           (Site.start Site.two_pages) rs titles st' Hrun).
Defined.

Lemma apply_to_all_lotteries_summary_witness :
  match fst (apply_to_all_lotteries Site.site Site.me "sale"
               (Site.start Site.two_pages)) with
  | Py.Ok rs =>
      length rs = 5%nat
      /\ Forall (verdict Site.me) rs
      /\ (let '(applied, already, not_eligible, failed) := tally rs in
          applied + already + not_eligible + failed = length rs)%nat
  | Py.Raise _ => False
  end.
Proof.
  assert (H5 : match fst (apply_to_all_lotteries Site.site Site.me "sale"
                            (Site.start Site.two_pages)) with
               | Py.Ok rs => length rs = 5%nat
               | Py.Raise _ => False
               end) by (vm_compute; reflexivity).
  pose proof (proj2 (apply_to_all_lotteries_summary Site.site Site.me "sale"
                       (Site.start Site.two_pages))) as H.
  unfold ensures in H.
  destruct (apply_to_all_lotteries Site.site Site.me "sale"
              (Site.start Site.two_pages)) as [[rs|e] st']; cbn [fst] in *;
    [| contradiction].
  split; [exact H5 | exact H].
Defined.

End SummaryExamples.

(** ** The income range, in general *)

Section IncomeRangeCases.




End IncomeRangeCases.

Section IncomeRangeOutcomes.
Context {world element : Type}.
Variable b : browser world element.
Variable self : HousingConnectBot.
Implicit Types st : state world element.


End IncomeRangeOutcomes.

Section IncomeRangeOutcomesExamples.


End IncomeRangeOutcomesExamples.

(** ** Amounts with thousands separators *)

Section Amounts.
















End Amounts.

(** ** Navigation *)

Section Navigation.
Context {world element : Type}.
Variable b : browser world element.
Variable self : HousingConnectBot.
Implicit Types st : state world element.

(** X11.  The boolean [navigate_to_lotteries] returns carries no
    information: whenever the function returns, it returns [True], also when
    no tab was found or the click on the tab raised.  It returns as soon as
    the navigation to the list has answered and the wait for the cards has
    answered or timed out; only an exception of the navigation itself, or an
    exception of the wait other than the time-out, leaves it. *)
Theorem navigate_to_lotteries_true (lottery_type : string) st :
  ensures (navigate_to_lotteries b lottery_type) st (fun r _ => r = true)
  /\ forall w1,
       answer b (Goto LOTTERIES_URL) (world_of st) = (Py.Ok tt, w1) ->
       match answer b (WaitForSelector "app-lottery-grid-card" 15000)
               (elapse b 3000 3000 w1) with
       | (Py.Raise e, _) => e = Py.PlaywrightTimeout
       | (Py.Ok _, _) => True
       end ->
       exists st', navigate_to_lotteries b lottery_type st = (Py.Ok true, st').
Proof.
  assert (Htrue : ensures (navigate_to_lotteries b lottery_type) st
                    (fun r _ => r = true)).
  { unfold navigate_to_lotteries.
    do 3 (apply ensures_bind, ensures_all; intros ? ?).
    apply ensures_bind.
    apply ensures_weaken with (P := fun r _ => r <> Some false).
    - intros [[]|] st'' Hr; apply ensures_ret; congruence.
    - apply ensures_try_except; [| intros; now apply ensures_ret].
      apply ensures_bind, ensures_all. intros [tab|] ?.
      + do 2 (apply ensures_bind, ensures_all; intros ? ?).
        now apply ensures_ret.
      + apply ensures_bind, ensures_all. intros [tab|] ?.
        * do 2 (apply ensures_bind, ensures_all; intros ? ?).
          now apply ensures_ret.
        * now apply ensures_ret. }
  split; [exact Htrue |].
  intros w1 Hgoto Hwait.
  assert (Hret : exists r st',
            navigate_to_lotteries b lottery_type st = (Py.Ok r, st')).
  { unfold navigate_to_lotteries.
    unfold bind at 1, do at 1. rewrite Hgoto.
    unfold bind at 1, sleep, sleep_uniform. cbn [world_of trace].
    unfold bind at 1, try_timeout, try_except at 1, bind at 1, do at 1.
    cbn [world_of trace].
    destruct (answer b (WaitForSelector "app-lottery-grid-card" 15000)
                (elapse b 3000 3000 w1)) as [[o|e] w2].
    - unfold ret at 1. unfold bind at 1.
      match goal with
      | |- context [try_except ?m ?h ?s] =>
          destruct (try_except_returns m h s) as (r & st3 & ->);
            [intros e st'; now eexists _, _ |]
      end.
      destruct r as [r|]; now eexists _, _.
    - subst e. unfold ret at 1. unfold bind at 1.
      match goal with
      | |- context [try_except ?m ?h ?s] =>
          destruct (try_except_returns m h s) as (r & st3 & ->);
            [intros e st'; now eexists _, _ |]
      end.
      destruct r as [r|]; now eexists _, _. }
  destruct Hret as (r & st' & Hrun). exists st'.
  now rewrite (ensures_elim _ _ _ _ _ Htrue Hrun) in Hrun.
Qed.


(** X13.  Once its first navigation has answered, [login] does not raise:
    it returns a boolean; and it returns [True] only by its last test: the
    address read after the settle delay is under the base path and is not
    the sign-in page of the identity provider. *)
Theorem login_boolean_after_navigation st w :
  answer b (Goto BASE_URL) (world_of st) = (Py.Ok tt, w) ->
  exists r st',
    login b self st = (Py.Ok r, st')
    /\ (r = true ->
        exists w' u,
          answer b Url w' = (Py.Ok u, world_of st')
          /\ Py.contains "housingconnect.nyc.gov/PublicWeb" u = true
          /\ Py.contains "id4/account/login" u = false).
Proof.
  intros Hgoto.
  destruct (login_returns_after_goto b self st w Hgoto) as (r & st' & Hrun).
  exists r, st'. split; [exact Hrun |]. intros Hr.
  destruct (ensures_elim _ _ _ _ _ (login_true_by_url b self st) Hrun Hr)
    as (w' & u & Hurl & Hu).
  exists w', u. split; [exact Hurl |].
  unfold logged_in_url in Hu. apply andb_true_iff in Hu as [H1 H2].
  now apply negb_true_iff in H2.
Qed.

End Navigation.

Section NavigationExamples.

Lemma navigate_to_lotteries_true_witness :
  fst (navigate_to_lotteries Site.site "sale" (Site.start Site.two_pages))
  = Py.Ok true.
Proof.
  destruct (proj2 (navigate_to_lotteries_true Site.site "sale"
                     (Site.start Site.two_pages)) _ eq_refl I)
    as (st' & ->).
  reflexivity.
Defined.


Lemma login_boolean_after_navigation_witness :
  exists st',
    login Site.site Site.me (Site.start Site.two_pages) = (Py.Ok true, st').
Proof.
  destruct (login_boolean_after_navigation Site.site Site.me
              (Site.start Site.two_pages) _ eq_refl) as (r & st' & Hrun & _).
  exists st'. rewrite Hrun. f_equal. f_equal.
  vm_compute in Hrun. now injection Hrun as <- _.
Defined.

End NavigationExamples.

(** ** Indices of cards *)

Section CardIndices.
Context {world element : Type}.
Variable b : browser world element.
Variable self : HousingConnectBot.
Implicit Types st : state world element.

Lemma index_negative {A} (l : list A) (i : Z) :
  i < 0 ->
  (i < - Z.of_nat (length l) -> index l i = Py.Raise Py.IndexError)
  /\ (- Z.of_nat (length l) <= i -> index l i = index l (i + Z.of_nat (length l))).
Proof.
  intros Hi. unfold index. cbv zeta.
  destruct (Z.ltb_spec i 0) as [_|]; [| lia].
  split; intros H.
  - destruct (Z.leb_spec 0 (i + Z.of_nat (length l))) as [|_]; [lia |].
    reflexivity.
  - destruct (Z.ltb_spec (i + Z.of_nat (length l)) 0) as [|_]; [lia |].
    reflexivity.
Qed.

Lemma bind_ok {A B} (m : M A) (f : A -> M B) st a st' :
  m st = (Py.Ok a, st') -> bind m f st = f a st'.
Proof. intros H. unfold bind. now rewrite H. Qed.

(** X14.  The range test of the application workflow looks at the upper end
    only.  With [cards] on the list view and a negative index: below
    [-len(cards)] the workflow raises [IndexError] right after counting the
    cards, instead of returning the out-of-range outcome; from [-len(cards)]
    on it counts from the end, and runs exactly as for the index
    [card_index + len(cards)]. *)
Theorem apply_negative_index (card_index : Z) (lottery_type : string) st st1
    (cards : list element) w2 :
  ensure_on_list b lottery_type st = (Py.Ok tt, st1) ->
  answer b (QuerySelectorAll "app-lottery-grid-card") (world_of st1)
    = (Py.Ok cards, w2) ->
  card_index < 0 ->
  (card_index < - Z.of_nat (length cards) ->
   apply_to_lottery_by_click b self card_index lottery_type st
   = (Py.Raise Py.IndexError,
      State w2
        (trace st1 ++ [Called (QuerySelectorAll "app-lottery-grid-card")])))
  /\ (- Z.of_nat (length cards) <= card_index ->
      apply_to_lottery_by_click b self card_index lottery_type st
      = apply_to_lottery_by_click b self
          (card_index + Z.of_nat (length cards)) lottery_type st).
Proof.
  intros Hlist Hcards Hneg.
  destruct (index_negative cards card_index Hneg) as [Hlow Hwrap].
  assert (Hdo : do b (QuerySelectorAll "app-lottery-grid-card") st1
                = (Py.Ok cards,
                   State w2
                     (trace st1 ++
                      [Called (QuerySelectorAll "app-lottery-grid-card")]))).
  { unfold do. now rewrite Hcards. }
  split; intros H.
  - unfold apply_to_lottery_by_click.
    rewrite (bind_ok _ _ _ _ _ Hlist), (bind_ok _ _ _ _ _ Hdo).
    destruct (Z.leb_spec (Z.of_nat (length cards)) card_index) as [|_];
      [lia |].
    unfold bind at 1, lift. now rewrite (Hlow H).
  - unfold apply_to_lottery_by_click.
    rewrite !(bind_ok _ _ _ _ _ Hlist), !(bind_ok _ _ _ _ _ Hdo).
    destruct (Z.leb_spec (Z.of_nat (length cards)) card_index) as [|_];
      [lia |].
    destruct (Z.leb_spec (Z.of_nat (length cards))
                (card_index + Z.of_nat (length cards))) as [|_]; [lia |].
    now rewrite (Hwrap H).
Qed.

Lemma collect_card_data_indices (i : Z) (cards : list element)
    (card_data : list CardData) st :
  ensures (collect_card_data b i cards card_data) st
    (fun data _ =>
       card_index_of <$> data
       = (card_index_of <$> card_data)
         ++ ((fun k => i + Z.of_nat k) <$> seq 0 (length cards))).
Proof.
  revert i card_data st.
  induction cards as [|card cards IH]; intros i card_data st.
  - cbn [collect_card_data]. apply ensures_ret. cbn. now rewrite app_nil_r.
  - cbn [collect_card_data].
    do 3 (apply ensures_bind, ensures_all; intros ? ?).
    eapply ensures_weaken; [| apply IH].
    intros data _ ->. cbn beta.
    rewrite fmap_app, <- app_assoc. f_equal.
    cbn [length seq fmap list_fmap app card_index_of].
    rewrite Z.add_0_r. f_equal.
    rewrite <- fmap_S_seq, <- list_fmap_compose.
    apply list_fmap_ext. intros k x _. cbn. lia.
Qed.

(** X15.  The card data [main] collects from a page has one entry per card,
    in page order, and the index of each entry is the position of its card:
    the indices are [range(len(cards))].  These are the indices [main]
    passes to the application workflow. *)
Theorem collect_card_data_positions (cards : list element) st data st' :
  collect_card_data b 0 cards [] st = (Py.Ok data, st') ->
  card_index_of <$> data = range 0 (Z.of_nat (length cards))
  /\ length data = length cards.
Proof.
  intros Hrun.
  pose proof (ensures_elim _ _ _ _ _
                (collect_card_data_indices 0 cards [] st) Hrun) as H.
  cbn [fmap list_fmap app] in H.
  assert (Hr : card_index_of <$> data = range 0 (Z.of_nat (length cards))).
  { rewrite H. unfold range. now rewrite Z.sub_0_r, Nat2Z.id. }
  split; [exact Hr |].
  apply (f_equal length) in H.
  now rewrite !length_fmap, length_seq in H.
Qed.

End CardIndices.

Section CardIndicesExamples.

Lemma apply_negative_index_witness :
  fst (apply_to_lottery_by_click Site.site Site.me (-4) "sale"
         (Site.start Site.two_pages))
  = Py.Raise Py.IndexError.
Proof.
  refine (f_equal fst
            (proj1 (apply_negative_index Site.site Site.me (-4) "sale"
                      (Site.start Site.two_pages) _
                      (Site.CardEl <$> [0; 1; 2]%nat) _ eq_refl eq_refl _) _));
    simpl; lia.
Defined.

Lemma collect_card_data_positions_witness :
  exists data st',
    collect_card_data Site.site 0 (Site.CardEl <$> [0; 1; 2]%nat) []
      (Site.start Site.two_pages) = (Py.Ok data, st')
    /\ card_index_of <$> data = [0; 1; 2].
Proof.
  eexists _, _. split; [reflexivity |].
  exact (proj1 (collect_card_data_positions Site.site
                  (Site.CardEl <$> [0; 1; 2]%nat)
                  (Site.start Site.two_pages) _ _ eq_refl)).
Defined.

End CardIndicesExamples.

(** ** Deliberate delays *)

Section DelayFacts.
Context {world element : Type}.
Variable b : browser world element.
Implicit Types st : state world element.
Implicit Types n : Z.

Lemma slept_app (evs evs' : list (event element)) :
  slept (evs ++ evs') = slept evs + slept evs'.
Proof.
  induction evs as [|[? c|lo hi] evs IH]; cbn [app slept]; lia.
Qed.

Lemma sam_same {A} (m : @M world element A) n :
  0 <= n -> (forall st, trace (snd (m st)) = trace st) -> sleeps_at_most n m.
Proof.
  intros Hn H st. exists []. rewrite H, app_nil_r. now split.
Qed.

Lemma sam_ret {A} (a : A) n :
  0 <= n -> @sleeps_at_most world element n A (ret a).
Proof. intros Hn. now apply sam_same. Qed.

Lemma sam_raise {A} (e : Py.exn) n :
  0 <= n -> @sleeps_at_most world element n A (raise e).
Proof. intros Hn. now apply sam_same. Qed.

Lemma sam_lift {A} (r : Py.result A) n :
  0 <= n -> @sleeps_at_most world element n A (lift r).
Proof. intros Hn. now apply sam_same. Qed.

Lemma sam_do {A} (c : call element A) n : 0 <= n -> sleeps_at_most n (do b c).
Proof.
  intros Hn st. exists [Called c]. unfold do.
  destruct (answer b c (world_of st)) as [r w]. now split.
Qed.

Lemma sam_sleep_uniform (lo hi : Z) n :
  hi <= n -> sleeps_at_most n (sleep_uniform b lo hi).
Proof.
  intros Hn st. exists [Slept lo hi]. split; [reflexivity |].
  cbn [slept]. lia.
Qed.

Lemma sam_bind n1 {A B} (m : @M world element A) (f : A -> @M world element B) n :
  sleeps_at_most n1 m -> n1 <= n ->
  (forall a, sleeps_at_most (n - n1) (f a)) ->
  sleeps_at_most n (bind m f).
Proof.
  intros Hm Hle Hf st. unfold bind.
  destruct (Hm st) as (e1 & H1 & L1).
  destruct (m st) as [[a|e] st1]; cbn [snd] in H1.
  - destruct (Hf a st1) as (e2 & H2 & L2).
    exists (e1 ++ e2). rewrite H2, H1, slept_app, app_assoc.
    split; [reflexivity | lia].
  - exists e1. split; [exact H1 | lia].
Qed.

Lemma sam_try_except n1 {A} (m : @M world element A) (h : Py.exn -> @M world element A) n :
  sleeps_at_most n1 m -> n1 <= n ->
  (forall e, sleeps_at_most (n - n1) (h e)) ->
  sleeps_at_most n (try_except m h).
Proof.
  intros Hm Hle Hh st. unfold try_except.
  destruct (Hm st) as (e1 & H1 & L1).
  destruct (m st) as [[a|e] st1]; cbn [snd] in H1.
  - exists e1. split; [exact H1 | lia].
  - destruct (Hh e st1) as (e2 & H2 & L2).
    exists (e1 ++ e2). rewrite H2, H1, slept_app, app_assoc.
    split; [reflexivity | lia].
Qed.

Lemma sam_try_timeout n1 {A} (m h : @M world element A) n :
  sleeps_at_most n1 m -> n1 <= n ->
  sleeps_at_most (n - n1) h ->
  sleeps_at_most n (try_timeout m h).
Proof.
  intros Hm Hle Hh. apply (sam_try_except n1); [exact Hm | exact Hle |].
  intros []; first [exact Hh | apply sam_raise; lia].
Qed.

Lemma sam_assoc {A B C} (m : @M world element A) (f : A -> @M world element B) (g : B -> @M world element C) n :
  sleeps_at_most n (bind m (fun a => bind (f a) g)) ->
  sleeps_at_most n (bind (bind m f) g).
Proof. intros H st. rewrite bind_assoc. apply H. Qed.

Lemma sam_stripped (t : option string) n :
  0 <= n -> @sleeps_at_most world element n _ (stripped t).
Proof.
  intros Hn. unfold stripped. destruct t; [apply sam_ret | apply sam_raise]; lia.
Qed.

End DelayFacts.

(** One step of a bound: the head of the computation decides. *)
Ltac sam_step :=
  lazymatch goal with
  | |- sleeps_at_most _ (bind (bind _ _) _) => apply sam_assoc
  | |- sleeps_at_most _ (bind (sleep_uniform _ _ ?hi) _) =>
      apply (sam_bind hi); [apply sam_sleep_uniform; lia | lia | intros ?]
  | |- sleeps_at_most _ (bind (sleep _ ?ms) _) =>
      apply (sam_bind ms); [apply sam_sleep_uniform; lia | lia | intros ?]
  | |- sleeps_at_most _ (bind (do _ _) _) =>
      apply (sam_bind 0); [apply sam_do; lia | lia | intros ?]
  | |- sleeps_at_most _ (bind (ret _) _) =>
      apply (sam_bind 0); [apply sam_ret; lia | lia | intros ?]
  | |- sleeps_at_most _ (bind (lift _) _) =>
      apply (sam_bind 0); [apply sam_lift; lia | lia | intros ?]
  | |- sleeps_at_most _ (bind (stripped _) _) =>
      apply (sam_bind 0); [apply sam_stripped; lia | lia | intros ?]
  | |- sleeps_at_most _ (bind (match ?x with _ => _ end) _) => destruct x
  | |- sleeps_at_most _ (match ?x with _ => _ end) => destruct x
  | |- sleeps_at_most _ (sleep_uniform _ _ _) => apply sam_sleep_uniform; lia
  | |- sleeps_at_most _ (sleep _ _) => apply sam_sleep_uniform; lia
  | |- sleeps_at_most _ (do _ _) => apply sam_do; lia
  | |- sleeps_at_most _ (ret _) => apply sam_ret; lia
  | |- sleeps_at_most _ (raise _) => apply sam_raise; lia
  | |- sleeps_at_most _ (lift _) => apply sam_lift; lia
  | |- sleeps_at_most _ (stripped _) => apply sam_stripped; lia
  end.

Ltac sam := repeat sam_step.

(** A part with its own bound, at the head of a sequence. *)
Ltac sam_part n1 H :=
  apply (sam_bind n1); [apply H; lia | lia | intros ?].

Section Delays.
Context {world element : Type}.
Variable b : browser world element.
Variable self : HousingConnectBot.
Implicit Types st : state world element.
Implicit Types n : Z.

Lemma sam_weaken {A} (m : @M world element A) n n' :
  sleeps_at_most n m -> n <= n' -> sleeps_at_most n' m.
Proof.
  intros H Hle st. destruct (H st) as (evs & E & L).
  exists evs. split; [exact E | lia].
Qed.

Lemma sam_first_card_src n : 0 <= n -> sleeps_at_most n (first_card_src b).
Proof. intros Hn. unfold first_card_src. sam. Qed.

Lemma sam_card_is_applied (card : element) n :
  0 <= n -> sleeps_at_most n (card_is_applied b card).
Proof. intros Hn. unfold card_is_applied. sam. Qed.

Lemma sam_find_page_link (page_num : Z) (links : list element) n :
  0 <= n -> sleeps_at_most n (find_page_link b page_num links).
Proof.
  revert n. induction links as [|link links IH]; intros n Hn;
    cbn [find_page_link].
  - sam.
  - sam. apply IH. lia.
Qed.

Lemma sam_wait_for_change (k : nat) (old_src : option string) n :
  500 * Z.of_nat k + 500 <= n ->
  sleeps_at_most n (wait_for_change b k old_src).
Proof.
  revert n. induction k as [|k IH]; intros n Hn; cbn [wait_for_change].
  - sam.
  - sam_step. sam_part 0 sam_first_card_src.
    sam_step; [apply IH; lia | sam].
Qed.

Lemma sam_navigate_to_lotteries (lottery_type : string) n :
  5000 <= n -> sleeps_at_most n (navigate_to_lotteries b lottery_type).
Proof.
  intros Hn. unfold navigate_to_lotteries. do 2 sam_step.
  apply (sam_bind 0); [apply (sam_try_timeout 0); [sam | lia | sam] | lia |].
  intros _. cbv zeta.
  apply (sam_bind 2000); [| lia | intros ?; sam].
  apply (sam_try_except 2000); [sam | lia | intros ?; sam].
Qed.

Lemma sam_go_to_page (page_num : Z) n :
  5500 <= n -> sleeps_at_most n (_go_to_page b page_num).
Proof.
  intros Hn. unfold _go_to_page.
  apply (sam_bind 5500); [| lia | intros ?; sam].
  apply (sam_try_except 5500); [| lia | intros ?; sam].
  sam_part 0 sam_first_card_src. sam_step.
  sam_step.
  - sam. sam_part 5500 sam_wait_for_change. sam.
  - do 2 sam_step. sam_part 0 sam_find_page_link.
    sam. sam_part 5500 sam_wait_for_change. sam.
Qed.

Lemma sam_login n : 12000 <= n -> sleeps_at_most n (login b self).
Proof.
  intros Hn. unfold login. destruct (credentials_missing self); [sam |].
  do 2 sam_step.
  apply (sam_try_except 9000); [| lia | intros ?; sam].
  unfold login_succeeded. sam.
Qed.

Lemma sam_back_to_list (lottery_type : string) (result : Result.dict) n :
  16000 <= n -> sleeps_at_most n (back_to_list b lottery_type result).
Proof.
  intros Hn. unfold back_to_list. do 2 sam_step.
  apply (sam_bind 8000); [apply (sam_try_timeout 0); [sam | lia | sam] | lia |].
  intros _. sam.
Qed.

Lemma sam_check_success (lottery_type : string) (result : Result.dict) n :
  16000 <= n -> sleeps_at_most n (check_success b lottery_type result).
Proof.
  intros Hn. unfold check_success. sam_step.
  apply (sam_bind 0); [sam | lia |].
  intros ?. apply sam_back_to_list. lia.
Qed.

Lemma sam_confirm_dialog n : 3500 <= n -> sleeps_at_most n (confirm_dialog b).
Proof.
  intros Hn. unfold confirm_dialog.
  apply (sam_try_timeout 3500); [| lia | sam].
  sam_step. sam_step.
  apply (sam_bind 500); [sam | lia |]. intros _. sam.
Qed.

Lemma sam_submit_application (lottery_type : string) (result : Result.dict) n :
  21500 <= n -> sleeps_at_most n (submit_application b lottery_type result).
Proof.
  intros Hn. unfold submit_application. sam_step.
  apply (sam_bind 0); [sam | lia |]. intros ?.
  apply (sam_bind 0); [sam | lia |]. intros ?.
  sam_step; [| sam]. do 2 sam_step.
  sam_part 3500 sam_confirm_dialog.
  apply sam_check_success. lia.
Qed.

Lemma sam_check_eligibility (lottery_type : string) (result : Result.dict) n :
  21500 <= n ->
  sleeps_at_most n (check_eligibility b self lottery_type result).
Proof.
  intros Hn. unfold check_eligibility. sam_step. cbv zeta. sam_step.
  sam; apply sam_submit_application; lia.
Qed.

Lemma sam_check_detail_applied (lottery_type : string) (result : Result.dict)
    n :
  21500 <= n ->
  sleeps_at_most n (check_detail_applied b self lottery_type result).
Proof.
  intros Hn. unfold check_detail_applied. sam_step.
  apply (sam_bind 0); [sam | lia |]. intros ?.
  apply (sam_bind 0); [sam | lia |]. intros ?.
  sam_step; [sam |]. apply sam_check_eligibility. lia.
Qed.

Lemma sam_open_detail (lottery_type : string) (card : element)
    (result : Result.dict) n :
  49000 <= n ->
  sleeps_at_most n (open_detail b self lottery_type card result).
Proof.
  intros Hn. unfold open_detail. do 3 sam_step.
  sam_step; [| sam]. do 2 sam_step.
  apply (sam_bind 18000).
  - apply (sam_try_timeout 0); [sam | lia |].
    do 2 sam_step. apply (sam_try_timeout 0); [sam | lia | sam].
  - lia.
  - intros _. sam_step. apply sam_check_detail_applied. lia.
Qed.

Lemma sam_ensure_on_list (lottery_type : string) n :
  5000 <= n -> sleeps_at_most n (ensure_on_list b lottery_type).
Proof.
  intros Hn. unfold ensure_on_list. sam_step. sam_step; [| sam].
  sam_part 5000 sam_navigate_to_lotteries. sam.
Qed.

Lemma sam_apply_to_lottery_by_click (card_index : Z) (lottery_type : string)
    n :
  54000 <= n ->
  sleeps_at_most n (apply_to_lottery_by_click b self card_index lottery_type).
Proof.
  intros Hn. unfold apply_to_lottery_by_click. cbv zeta.
  sam_part 5000 sam_ensure_on_list. sam_step.
  sam_step; [sam |]. do 2 sam_step.
  apply (sam_bind 0); [sam | lia |]. intros ?.
  sam_part 0 sam_card_is_applied.
  sam_step; [sam |]. apply sam_open_detail. lia.
Qed.

(** X16.  The deliberate delays of the bot are bounded on every path,
    whatever the site answers and whether the operation returns or raises:
    the pauses ([time.sleep], each random one counted at its upper end) of
    one [navigate_to_lotteries] add up to at most 5 s, of one [_go_to_page]
    to at most 5.5 s, of one [login] to at most 12 s, and of one
    [apply_to_lottery_by_click] to at most 54 s; and every operation only
    adds to the trace. *)
Theorem delays_bounded (lottery_type : string) (page_num card_index : Z) :
  sleeps_at_most 5000 (navigate_to_lotteries b lottery_type)
  /\ sleeps_at_most 5500 (_go_to_page b page_num)
  /\ sleeps_at_most 12000 (login b self)
  /\ sleeps_at_most 54000
       (apply_to_lottery_by_click b self card_index lottery_type).
Proof.
  split; [| split; [| split]].
  - now apply sam_navigate_to_lotteries.
  - now apply sam_go_to_page.
  - now apply sam_login.
  - now apply sam_apply_to_lottery_by_click.
Qed.

End Delays.

(** ** What a successful outcome stands for *)

Section Submission.
Context {world element : Type}.
Variable b : browser world element.
Variable self : HousingConnectBot.
Implicit Types st : state world element.
Implicit Types result r : Result.dict.

Lemma ensures_do {A} (c : call element A) st :
  ensures (do b c) st
    (fun a st' =>
       answer b c (world_of st) = (Py.Ok a, world_of st')
       /\ trace st' = trace st ++ [Called c]).
Proof.
  unfold ensures, do.
  now destruct (answer b c (world_of st)) as [[a|e] w].
Qed.

(** What is in the trace stays in the trace. *)
Lemma ensures_grows {A} (m : M A) n st :
  sleeps_at_most n m ->
  ensures m st (fun _ st' => forall ev, ev ∈ trace st -> ev ∈ trace st').
Proof.
  intros H. unfold ensures. destruct (H st) as (evs & E & _).
  destruct (m st) as [[a|e] st']; [| exact I]. cbn [snd] in E.
  intros ev Hev. rewrite E. apply elem_of_app. now left.
Qed.

Lemma submit_application_clicked (lottery_type : string) result st :
  Result.success result = false ->
  ensures (submit_application b lottery_type result) st
    (fun r st' => Result.success r = true -> clicked_apply_now b st').
Proof.
  intros Hres. unfold submit_application.
  apply ensures_bind. eapply ensures_weaken; [| apply ensures_do].
  intros b1 st1 [H1 _]. cbn beta.
  apply ensures_bind.
  apply ensures_weaken
    with (P := fun x _ => forall btn, x = Some btn -> found_apply_now b btn).
  - intros b2 st2 H2. apply ensures_bind.
    apply ensures_weaken
      with (P := fun x _ => forall btn, x = Some btn -> found_apply_now b btn).
    + intros [btn|] st3 H3; [| apply ensures_ret; cbn; congruence].
      specialize (H3 btn eq_refl).
      apply ensures_bind. eapply ensures_weaken; [| apply ensures_do].
      intros [] st4 [_ Ht]. cbn beta.
      eapply ensures_weaken; [| apply (ensures_grows _ 21500)].
      * intros r st5 Hgrow _. exists btn. split; [exact H3 |].
        apply Hgrow. rewrite Ht. apply elem_of_app. right. now left.
      * sam_step. sam_part 3500 (sam_confirm_dialog b).
        apply sam_check_success. lia.
    + destruct b2 as [btn|].
      * apply ensures_ret. intros ? [= <-]. now apply H2.
      * eapply ensures_weaken; [| apply ensures_do].
        intros b3 st3 [H3 _] btn ->.
        eexists _, _, _. split; [| exact H3].
        unfold apply_now_selectors. set_solver.
  - destruct b1 as [btn|].
    + apply ensures_ret. intros ? [= <-].
      eexists _, _, _. split; [| exact H1].
      unfold apply_now_selectors. set_solver.
    + eapply ensures_weaken; [| apply ensures_do].
      intros b2 st2 [H2 _] btn ->.
      eexists _, _, _. split; [| exact H2].
      unfold apply_now_selectors. set_solver.
Qed.

Lemma check_eligibility_clicked (lottery_type : string) result st :
  Result.success result = false ->
  ensures (check_eligibility b self lottery_type result) st
    (fun r st' => Result.success r = true -> clicked_apply_now b st').
Proof.
  intros Hres. unfold check_eligibility.
  do 2 (apply ensures_bind, ensures_all; intros ? ?).
  destruct a0 as [[lo|] [hi|]];
    try (now apply submit_application_clicked).
  destruct (negb _); [| now apply submit_application_clicked].
  apply ensures_ret. cbn. congruence.
Qed.

Lemma check_detail_applied_clicked (lottery_type : string) result st :
  Result.success result = false ->
  ensures (check_detail_applied b self lottery_type result) st
    (fun r st' => Result.success r = true -> clicked_apply_now b st').
Proof.
  intros Hres. unfold check_detail_applied.
  do 3 (apply ensures_bind, ensures_all; intros ? ?).
  destruct a1; [| now apply check_eligibility_clicked].
  apply ensures_ret. cbn. congruence.
Qed.

Lemma open_detail_clicked (lottery_type : string) (card : element) result st :
  Result.success result = false ->
  ensures (open_detail b self lottery_type card result) st
    (fun r st' => Result.success r = true -> clicked_apply_now b st').
Proof.
  intros Hres. unfold open_detail.
  do 3 (apply ensures_bind, ensures_all; intros ? ?).
  destruct a1 as [view_btn|]; [| apply ensures_ret; cbn; congruence].
  do 4 (apply ensures_bind, ensures_all; intros ? ?).
  now apply check_detail_applied_clicked.
Qed.

(** X17.  An outcome marked successful stands for a click: whenever
    [apply_to_lottery_by_click] returns an outcome whose [success] is set,
    the run has clicked an element that one of the three [Apply Now]
    selectors had found. *)
Theorem success_means_clicked (card_index : Z) (lottery_type : string)
    st r st' :
  apply_to_lottery_by_click b self card_index lottery_type st
    = (Py.Ok r, st') ->
  Result.success r = true ->
  clicked_apply_now b st'.
Proof.
  apply (ensures_elim _ _
           (fun r st' => Result.success r = true -> clicked_apply_now b st')).
  unfold apply_to_lottery_by_click. cbv zeta.
  do 2 (apply ensures_bind, ensures_all; intros ? ?).
  destruct (_ <=? _); [apply ensures_ret; cbn; congruence |].
  do 4 (apply ensures_bind, ensures_all; intros ? ?).
  destruct a4; [apply ensures_ret; cbn; congruence |].
  now apply open_detail_clicked.
Qed.

End Submission.

Section SubmissionExamples.

Lemma success_means_clicked_witness :
  exists st',
    apply_to_lottery_by_click Site.site Site.me 0 "sale"
      (Site.start Site.two_pages) = (Py.Ok applied_outcome, st')
    /\ clicked_apply_now Site.site st'.
Proof.
  destruct (apply_to_lottery_by_click Site.site Site.me 0 "sale"
              (Site.start Site.two_pages)) as [r st'] eqn:Hrun.
  assert (Hr : r = Py.Ok applied_outcome).
  { vm_compute in Hrun. now injection Hrun as <- _. }
  subst r. exists st'. split; [reflexivity |].
  exact (success_means_clicked Site.site Site.me 0 "sale"
           (Site.start Site.two_pages) applied_outcome st' Hrun eq_refl).
Defined.

End SubmissionExamples.
